(** * entity-emailer: the filing notification processor

    A shallow embedding of
    [queue_services/entity-emailer/src/entity_emailer/email_processors/filing_notification.py]:
    the table [FILING_TYPE_CONVERTER], the attachment assembler [_get_pdfs]
    and the builder [process], followed by the properties of the
    notification that the specification states.

    Python strings are Rocq strings over the ASCII alphabet, JSON payloads
    are a tagged union, a raised exception is the left summand of a sum, and
    the outside world (HTTP services, template store, logger, Sentry) is an
    environment of oracles plus a trace of the events the code emits. *)

From Stdlib Require Import String Ascii List ZArith NArith Bool Lia.
From Stdlib Require Import Strings.Byte DecimalString.
Import ListNotations.

Local Open Scope list_scope.
Local Open Scope string_scope.

(* ===================================================================== *)
(** ** Characters and strings *)
(* ===================================================================== *)

Module PyStr.

(** The character classes [A-Z] and [a-z] of the regular expression. *)
Definition is_upper (c : ascii) : bool :=
  let n := nat_of_ascii c in (65 <=? n)%nat && (n <=? 90)%nat.

Definition is_lower (c : ascii) : bool :=
  let n := nat_of_ascii c in (97 <=? n)%nat && (n <=? 122)%nat.

(** [[a-zA-Z]] *)
Definition is_letter (c : ascii) : bool := is_lower c || is_upper c.

(** [str.upper] on one ASCII character. *)
Definition upper_char (c : ascii) : ascii :=
  if is_lower c then ascii_of_nat (nat_of_ascii c - 32) else c.

(** [s.upper()] *)
Fixpoint upper (s : string) : string :=
  match s with
  | EmptyString => EmptyString
  | String c s' => String (upper_char c) (upper s')
  end.

(** [sep.join(parts)] *)
Fixpoint join (sep : string) (parts : list string) : string :=
  match parts with
  | [] => ""
  | [p] => p
  | p :: rest => p ++ sep ++ join sep rest
  end.

(** [x in s] for strings: [x] occurs in [s] as a substring. *)
Fixpoint contains (x s : string) : bool :=
  String.prefix x s ||
  match s with
  | EmptyString => false
  | String _ s' => contains x s'
  end.

(** The greedy tail [[^A-Z]*] of a match: the longest run of characters
    outside [A-Z], and what follows it. *)
Fixpoint span_non_upper (s : string) : string * string :=
  match s with
  | EmptyString => (EmptyString, EmptyString)
  | String c s' =>
      if is_upper c then (EmptyString, s)
      else let (w, r) := span_non_upper s' in (String c w, r)
  end.

(** [re.findall('[a-zA-Z][^A-Z]*', s)]: scan from the left; at a letter a
    match opens and takes the greedy tail, and the scan resumes after the
    match; any other character is skipped.  Each step consumes at least
    one character, so [String.length s] steps are enough. *)
Fixpoint findall_words_from (fuel : nat) (s : string) : list string :=
  match fuel with
  | O => []
  | S fuel' =>
      match s with
      | EmptyString => []
      | String c s' =>
          if is_letter c
          then let (w, r) := span_non_upper s' in
               String c w :: findall_words_from fuel' r
          else findall_words_from fuel' s'
      end
  end.

Definition findall_words (s : string) : list string :=
  findall_words_from (String.length s) s.

End PyStr.

(* ===================================================================== *)
(** ** Exceptions *)
(* ===================================================================== *)

(** The exceptions the module can raise itself, and [External] for one
    raised inside a collaborator. *)
Inductive exn : Type :=
| KeyError (key : string)
| IndexError
| TypeError
| AttributeError
| UnboundLocalError (var : string)
| FileNotFoundError (path : string)
| External (what : string).

Definition result (A : Type) : Type := (exn + A)%type.
Definition Ok {A} (a : A) : result A := inr a.
Definition Raise {A} (e : exn) : result A := inl e.

(* ===================================================================== *)
(** ** Python values *)
(* ===================================================================== *)

(** What a decoded JSON document holds: [None], booleans, integers,
    strings, lists and dictionaries with string keys (in insertion order).
    Floating-point numbers are outside the model. *)
#[local] Set Warnings "-register-all".
Inductive value : Type :=
| VNone
| VBool (b : bool)
| VInt (z : Z)
| VStr (s : string)
| VList (items : list value)
| VDict (entries : list (string * value)).

Module Py.

(** Lookup of a key among the entries of a dictionary. *)
Fixpoint assoc {A} (k : string) (m : list (string * A)) : option A :=
  match m with
  | [] => None
  | (k', v) :: m' => if String.eqb k k' then Some v else assoc k m'
  end.

(** [d[k]]: [KeyError] on a dictionary without the key; no other value
    of the model can be subscripted with a string. *)
Definition subscript (d : value) (k : string) : result value :=
  match d with
  | VDict m =>
      match assoc k m with
      | Some v => Ok v
      | None => Raise (KeyError k)
      end
  | _ => Raise TypeError
  end.

(** [d.get(k, default)]: only dictionaries have the method. *)
Definition get (d : value) (k : string) (default : value) : result value :=
  match d with
  | VDict m =>
      match assoc k m with
      | Some v => Ok v
      | None => Ok default
      end
  | _ => Raise AttributeError
  end.

(** Truth value of an object, as [if v] and [if not v] test it. *)
Definition truthy (v : value) : bool :=
  match v with
  | VNone => false
  | VBool b => b
  | VInt z => negb (z =? 0)%Z
  | VStr s => negb (String.eqb s "")
  | VList l => match l with [] => false | _ => true end
  | VDict m => match m with [] => false | _ => true end
  end.

(** [str(n)] for an integer. *)
Definition str_int (z : Z) : string := NilZero.string_of_int (Z.to_int z).

Definition hex_digit (n : nat) : ascii :=
  match String.get n "0123456789abcdef" with
  | Some c => c
  | None => "0"%char
  end.

(** One character of [repr(s)], for the chosen quote character. *)
Definition repr_char (quote c : ascii) : string :=
  let n := nat_of_ascii c in
  if Ascii.eqb c quote || Ascii.eqb c "\"%char
  then String "\"%char (String c "")
  else if (n =? 9)%nat then "\t"
  else if (n =? 10)%nat then "\n"
  else if (n =? 13)%nat then "\r"
  else if (n <? 32)%nat || (n =? 127)%nat
  then String "\"%char (String "x"%char
         (String (hex_digit (n / 16)) (String (hex_digit (n mod 16)) "")))
  else String c "".

Fixpoint repr_chars (quote : ascii) (s : string) : string :=
  match s with
  | EmptyString => EmptyString
  | String c s' => repr_char quote c ++ repr_chars quote s'
  end.

Definition has_char (c : ascii) (s : string) : bool :=
  PyStr.contains (String c "") s.

Definition squote : ascii := ascii_of_nat 39.
Definition dquote : ascii := ascii_of_nat 34.

(** [repr(s)] for a string: single quotes, unless the string has a single
    quote and no double quote. *)
Definition repr_str (s : string) : string :=
  let quote :=
    if has_char squote s && negb (has_char dquote s)
    then dquote else squote in
  String quote (repr_chars quote s ++ String quote "").

(** [repr(v)] *)
Fixpoint repr (v : value) : string :=
  match v with
  | VNone => "None"
  | VBool true => "True"
  | VBool false => "False"
  | VInt z => str_int z
  | VStr s => repr_str s
  | VList l =>
      "[" ++ PyStr.join ", " (List.map repr l) ++ "]"
  | VDict m =>
      "{" ++ PyStr.join ", "
               (List.map (fun kv => repr_str (fst kv) ++ ": " ++ repr (snd kv)) m)
          ++ "}"
  end.

(** [str(v)], which is what an f-string field [{v}] inserts. *)
Definition str (v : value) : string :=
  match v with
  | VStr s => s
  | _ => repr v
  end.

(** [str(x)] where [x] is a string or [None] (a configuration entry, a
    nullable column). *)
Definition str_opt (x : option string) : string :=
  match x with
  | Some s => s
  | None => "None"
  end.

End Py.

(* ===================================================================== *)
(** ** Base64 *)
(* ===================================================================== *)

Module base64.

Definition alphabet : string :=
  "ABCDEFGHIJKLMNOPQRSTUVWXYZabcdefghijklmnopqrstuvwxyz0123456789+/".

Definition digit (n : N) : ascii :=
  match String.get (N.to_nat n) alphabet with
  | Some c => c
  | None => "="%char
  end.

(** [base64.b64encode(content).decode('utf-8')]: three bytes give four
    digits of six bits each; a last group of one or two bytes is padded
    with [=]. *)
Fixpoint b64encode (content : list byte) : string :=
  match content with
  | [] => ""
  | [a] =>
      let x := Byte.to_N a in
      String (digit (x / 4))
        (String (digit ((x mod 4) * 16)) "==")
  | [a; b] =>
      let x := Byte.to_N a in
      let y := Byte.to_N b in
      String (digit (x / 4))
        (String (digit ((x mod 4) * 16 + y / 16))
           (String (digit ((y mod 16) * 4)) "="))
  | a :: b :: c :: rest =>
      let x := Byte.to_N a in
      let y := Byte.to_N b in
      let z := Byte.to_N c in
      String (digit (x / 4))
        (String (digit ((x mod 4) * 16 + y / 16))
           (String (digit ((y mod 16) * 4 + z / 64))
              (String (digit (z mod 64)) (b64encode rest))))
  end%N.

End base64.

(* ===================================================================== *)
(** ** The human-readable filing name *)
(* ===================================================================== *)

(** [filing.filing_type[0].upper() +
     ' '.join(re.findall('[a-zA-Z][^A-Z]*', filing.filing_type[1:]))]
    (lines 59-60 and 154).  Indexing the empty string raises. *)
Definition filing_name (filing_type : string) : result string :=
  match filing_type with
  | EmptyString => Raise IndexError
  | String c rest =>
      Ok (String (PyStr.upper_char c) EmptyString
          ++ PyStr.join " " (PyStr.findall_words rest))
  end.


(* ===================================================================== *)
(** ** Data model *)
(* ===================================================================== *)

(** The [Filing] model of [legal_api.models], as far as the processor
    reads it. *)
Module Filing.

Record t : Type := mk {
  id : Z;
  filing_type : string;
  filing_json : value;      (* the stored submission *)
  json : value;             (* the [json] property *)
  payment_token : option string
}.

Module Status.
(** Modelled from the spec: the values of [Filing.Status.PAID] and
    [Filing.Status.COMPLETED]; the enumeration is declared in
    [legal_api.models], which is not among the sources.  The
    specification names the two statuses "paid" and "completed". *)
Definition PAID : string := "paid".
Definition COMPLETED : string := "completed".
End Status.

End Filing.

(** The queue message handed to [process]: [email_info['type']],
    [email_info['option']] and [email_info['filingId']]. *)
Module EmailInfo.
Record t : Type := mk {
  type : string;
  option : string;
  filingId : value
}.
End EmailInfo.

(** [http.HTTPStatus] *)
Module HTTPStatus.
Definition OK : Z := 200.
Definition CREATED : Z := 201.
End HTTPStatus.

(** A [requests.Response]. *)
Record response : Type := mkResponse {
  status_code : Z;
  content : list byte
}.

Definition headers : Type := list (string * string).

(** One entry of the list [_get_pdfs] returns. *)
Record attachment : Type := mkAttachment {
  fileName : string;
  fileBytes : string;
  fileUrl : string;
  attachOrder : string
}.

(** The dictionary [process] returns. *)
Record content_t : Type := mkContent {
  subject : string;
  body : string;
  attachments : list attachment
}.

Record message : Type := mkMessage {
  recipients : value;
  requestBy : string;
  msg_content : content_t
}.

(** The keyword arguments of [jnja_template.render]. *)
Record render_args : Type := mkRenderArgs {
  r_business : value;
  r_filing : value;
  r_header : value;
  r_filing_date_time : string;
  r_effective_date_time : string;
  r_entity_dashboard_url : string;
  r_email_header : string
}.

(* ===================================================================== *)
(** ** The outside world *)
(* ===================================================================== *)

Inductive log_arg : Type :=
| ArgEmailInfo (email_info : EmailInfo.t)
| ArgFilingId (id : Z).

(** What the processor does to the outside, in the order it does it. *)
Inductive event : Type :=
| Log (level : string) (format : string) (arg : log_arg)
| CaptureMessage (text : string) (level : string)
| Get (url : string) (hdrs : headers)
| Post (url : string) (json_body : value) (hdrs : headers).

(** [current_app.config.get(...)]: an absent entry reads as [None]. *)
Record config : Type := mkConfig {
  LEGAL_API_URL : option string;
  PAY_API_URL : option string;
  TEMPLATE_PATH : option string;
  DASHBOARD_URL : option string
}.

(** The collaborators, as oracles: each answers a call with a value or
    with an exception. *)
Record env : Type := mkEnv {
  app_config : config;
  (* [Path(p).read_text()] *)
  read_text : string -> result string;
  substitute_template_parts : string -> result string;
  (* [get_filing_info(filing_id)]:
     filing, business, filing date, effective date *)
  get_filing_info : value -> result (Filing.t * value * string * string);
  (* [Template(source, autoescape=True)], then its [render] *)
  jinja_Template : string -> result (render_args -> result string);
  get_recipients : string -> value -> string -> result value;
  requests_get : string -> headers -> result response;
  requests_post : string -> value -> headers -> result response
}.

(** A computation: from the trace so far to an outcome and the trace
    after it.  An exception keeps the events emitted before it. *)
Definition M (A : Type) : Type := list event -> result A * list event.

Definition ret {A} (a : A) : M A := fun w => (Ok a, w).

Definition bind {A B} (m : M A) (k : A -> M B) : M B :=
  fun w =>
    match m w with
    | (inr a, w') => k a w'
    | (inl e, w') => (inl e, w')
    end.

Definition lift {A} (r : result A) : M A := fun w => (r, w).

Definition emit (ev : event) : M unit := fun w => (Ok tt, (w ++ [ev])%list).

Declare Scope py_scope.
Delimit Scope py_scope with py.
Notation "x <- m ;; k" := (bind m (fun x => k))
  (at level 61, m at next level, right associativity) : py_scope.
Notation "' p <- m ;; k" := (bind m (fun x => match x with p => k end))
  (at level 61, p pattern, m at next level, right associativity) : py_scope.
Notation "m ;; k" := (bind m (fun _ => k))
  (at level 61, right associativity) : py_scope.
Local Open Scope py_scope.

Definition logger_debug (format : string) (arg : log_arg) : M unit :=
  emit (Log "debug" format arg).

Definition logger_error (format : string) (arg : log_arg) : M unit :=
  emit (Log "error" format arg).

Definition capture_message (text level : string) : M unit :=
  emit (CaptureMessage text level).

Definition http_get (e : env) (url : string) (hdrs : headers) : M response :=
  emit (Get url hdrs) ;; lift (requests_get e url hdrs).

Definition http_post (e : env) (url : string) (json_body : value)
    (hdrs : headers) : M response :=
  emit (Post url json_body hdrs) ;; lift (requests_post e url json_body hdrs).

(* ===================================================================== *)
(** ** The processor *)
(* ===================================================================== *)

Definition FILING_TYPE_CONVERTER : list (string * string) :=
  [ ("incorporationApplication", "IA");
    ("annualReport", "AR");
    ("changeOfDirectors", "COD");
    ("changeOfAddress", "COA") ].

(** [FILING_TYPE_CONVERTER[filing_type]] *)
Definition converter_code (filing_type : string) : result string :=
  match Py.assoc filing_type FILING_TYPE_CONVERTER with
  | Some code => Ok code
  | None => Raise (KeyError filing_type)
  end.

Definition rbind {A B} (r : result A) (k : A -> result B) : result B :=
  match r with
  | inr a => k a
  | inl e => inl e
  end.

(** [filing.filing_json['filing']['incorporationApplication']['nameRequest']] *)
Definition name_request (filing : Filing.t) : result value :=
  rbind (Py.subscript (Filing.filing_json filing) "filing") (fun f =>
  rbind (Py.subscript f "incorporationApplication") (fun ia =>
  Py.subscript ia "nameRequest")).

(** Lines 70-74: the name sent with the receipt request. *)
Definition corp_name (filing : Filing.t) (business : value) : result value :=
  if String.eqb (Filing.filing_type filing) "incorporationApplication"
  then rbind (name_request filing) (fun nr =>
         Py.get nr "legalName" (VStr "Numbered Company"))
  else Py.get business "legalName" VNone.

(** [f'{LEGAL_API_URL}/businesses/{business["identifier"]}/filings/{filing.id}'] *)
Definition filing_url (e : env) (business : value) (filing : Filing.t)
    : result string :=
  rbind (Py.subscript business "identifier") (fun identifier =>
  Ok (Py.str_opt (LEGAL_API_URL (app_config e)) ++ "/businesses/"
      ++ Py.str identifier ++ "/filings/" ++ Py.str_int (Filing.id filing))).

(** [f'{PAY_API_URL}/{filing.payment_token}/receipts'] *)
Definition receipt_url (e : env) (filing : Filing.t) : string :=
  Py.str_opt (PAY_API_URL (app_config e)) ++ "/"
  ++ Py.str_opt (Filing.payment_token filing) ++ "/receipts".

Definition request_headers (token : string) : headers :=
  [ ("Accept", "application/pdf"); ("Authorization", "Bearer " ++ token) ].

(** [_get_pdfs(status, token, business, filing, filing_date_time)];
    [pdfs.append] is written as the list growing at its end. *)
Definition _get_pdfs (e : env) (status token : string) (business : value)
    (filing : Filing.t) (filing_date_time : string) : M (list attachment) :=
  let pdfs : list attachment := [] in
  let headers := request_headers token in
  pdfs <-
    (if String.eqb status Filing.Status.PAID then
       (* add filing pdf *)
       url <- lift (filing_url e business filing) ;;
       filing_pdf <- http_get e url headers ;;
       pdfs <-
         (if negb (status_code filing_pdf =? HTTPStatus.OK)%Z then
            logger_error "Failed to get pdf for filing: %s"
              (ArgFilingId (Filing.id filing)) ;;
            capture_message
              ("Email Queue: filing id=" ++ Py.str_int (Filing.id filing)
               ++ ", error=pdf generation") "error" ;;
            ret pdfs
          else
            let filing_pdf_encoded := base64.b64encode (content filing_pdf) in
            file_name <- lift (filing_name (Filing.filing_type filing)) ;;
            ret (pdfs ++ [ {| fileName := "Notice of " ++ file_name ++ ".pdf";
                              fileBytes := filing_pdf_encoded;
                              fileUrl := "";
                              attachOrder := "1" |} ])%list) ;;
       (* add receipt pdf *)
       corp_name <- lift (corp_name filing business) ;;
       receipt <- http_post e (receipt_url e filing)
                    (VDict [ ("corpName", corp_name);
                             ("filingDateTime", VStr filing_date_time) ])
                    headers ;;
       (if negb (status_code receipt =? HTTPStatus.CREATED)%Z then
          logger_error "Failed to get receipt pdf for filing: %s"
            (ArgFilingId (Filing.id filing)) ;;
          capture_message
            ("Email Queue: filing id=" ++ Py.str_int (Filing.id filing)
             ++ ", error=receipt generation") "error" ;;
          ret pdfs
        else
          let receipt_encoded := base64.b64encode (content receipt) in
          ret (pdfs ++ [ {| fileName := "Receipt.pdf";
                            fileBytes := receipt_encoded;
                            fileUrl := "";
                            attachOrder := "2" |} ])%list)
     else ret pdfs) ;;
  (if String.eqb status Filing.Status.COMPLETED then
     (* add notice of articles *)
     url <- lift (filing_url e business filing) ;;
     noa <- http_get e (url ++ "?type=noa") headers ;;
     pdfs <-
       (if negb (status_code noa =? HTTPStatus.OK)%Z then
          logger_error "Failed to get noa pdf for filing: %s"
            (ArgFilingId (Filing.id filing)) ;;
          capture_message
            ("Email Queue: filing id=" ++ Py.str_int (Filing.id filing)
             ++ ", error=noa generation") "error" ;;
          ret pdfs
        else
          let noa_encoded := base64.b64encode (content noa) in
          ret (pdfs ++ [ {| fileName := "Notice of Articles.pdf";
                            fileBytes := noa_encoded;
                            fileUrl := "";
                            attachOrder := "1" |} ])%list) ;;
     if String.eqb (Filing.filing_type filing) "incorporationApplication" then
       (* add certificate *)
       url <- lift (filing_url e business filing) ;;
       certificate <- http_get e (url ++ "?type=certificate") headers ;;
       if negb (status_code certificate =? HTTPStatus.OK)%Z then
         logger_error "Failed to get certificate pdf for filing: %s"
           (ArgFilingId (Filing.id filing)) ;;
         capture_message
           ("Email Queue: filing id=" ++ Py.str_int (Filing.id filing)
            ++ ", error=certificate generation") "error" ;;
         ret pdfs
       else
         let certificate_encoded := base64.b64encode (content certificate) in
         ret (pdfs ++ [ {| fileName := "Incorporation Certificate.pdf";
                           fileBytes := certificate_encoded;
                           fileUrl := "";
                           attachOrder := "2" |} ])%list
     else ret pdfs
   else ret pdfs).

(** [x in xs] for a list of strings. *)
Definition in_list (x : string) (xs : list string) : bool :=
  List.existsb (String.eqb x) xs.

(** [[x for x in ['Address', 'Director'] if x in filing_type][0]] *)
Definition address_director (filing_type : string) : result string :=
  match List.filter (fun x => PyStr.contains x filing_type)
          ["Address"; "Director"] with
  | x :: _ => Ok x
  | [] => Raise IndexError
  end.

(** Lines 175-188: the assignments to the local [subject].  [None] is the
    local left unbound, which is what happens when no branch assigns it. *)
Definition assign_subject (status filing_type : string)
    : result (option string) :=
  if String.eqb status Filing.Status.PAID then
    if String.eqb filing_type "incorporationApplication" then
      Ok (Some "Confirmation of Filing from the Business Registry")
    else if in_list filing_type ["changeOfAddress"; "changeOfDirectors"] then
      rbind (address_director filing_type) (fun address_director =>
      Ok (Some ("Confirmation of " ++ address_director ++ " Change")))
    else if String.eqb filing_type "annualReport" then
      Ok (Some "Confirmation of Annual Report")
    else Ok None
  else if String.eqb status Filing.Status.COMPLETED then
    if String.eqb filing_type "incorporationApplication" then
      Ok (Some "Incorporation Documents from the Business Registry")
    else if in_list filing_type ["changeOfAddress"; "changeOfDirectors"] then
      Ok (Some "Notice of Articles")
    else Ok None
  else Ok None.

(** Lines 190-191: [if not subject] reads the local; reading it unbound
    raises [UnboundLocalError]. *)
Definition fallback_subject (subject : option string) : result string :=
  match subject with
  | None => Raise (UnboundLocalError "subject")
  | Some s =>
      if negb (Py.truthy (VStr s))
      then Ok "Notification from the BC Business Registry"
      else Ok s
  end.

(** Lines 193-197. *)
Definition legal_name (filing : Filing.t) (business : value) : result value :=
  if String.eqb (Filing.filing_type filing) "incorporationApplication"
  then rbind (name_request filing) (fun nr => Py.get nr "legalName" VNone)
  else Py.get business "legalName" VNone.

(** Lines 175-199: the subject of the message. *)
Definition subject_line (status filing_type : string) (filing : Filing.t)
    (business : value) : result string :=
  rbind (assign_subject status filing_type) (fun subject =>
  rbind (fallback_subject subject) (fun subject =>
  rbind (legal_name filing business) (fun legal_name =>
  Ok (if Py.truthy legal_name
      then Py.str legal_name ++ " - " ++ subject
      else subject)))).

(** [a + b] where [a] is a configuration entry: both must be strings. *)
Definition add_str (a : option string) (b : value) : result string :=
  match a, b with
  | Some x, VStr y => Ok (x ++ y)
  | _, _ => Raise TypeError
  end.

(** The keyword arguments of the [render] call, evaluated in order
    (lines 158-165). *)
Definition render_arguments (e : env) (filing_type : string)
    (filing : Filing.t) (business : value)
    (leg_tmz_filing_date leg_tmz_effective_date filing_name : string)
    : result render_args :=
  rbind (Py.subscript (Filing.json filing) "filing") (fun f =>
  rbind (Py.subscript f filing_type) (fun filing_part =>
  rbind (Py.subscript f "header") (fun header =>
  rbind (Py.subscript f "business") (fun b =>
  rbind (Py.get b "identifier" (VStr "")) (fun identifier =>
  rbind (add_str (DASHBOARD_URL (app_config e)) identifier) (fun url =>
  Ok {| r_business := business;
        r_filing := filing_part;
        r_header := header;
        r_filing_date_time := leg_tmz_filing_date;
        r_effective_date_time := leg_tmz_effective_date;
        r_entity_dashboard_url := url;
        r_email_header := PyStr.upper filing_name |})))))).

(** [process(email_info, token)] *)
Definition process (e : env) (email_info : EmailInfo.t) (token : string)
    : M message :=
  logger_debug "filing_notification: %s" (ArgEmailInfo email_info) ;;
  (* get template and fill in parts *)
  let filing_type := EmailInfo.type email_info in
  let status := EmailInfo.option email_info in
  code <- lift (converter_code filing_type) ;;
  template <- lift (read_text e
                 (Py.str_opt (TEMPLATE_PATH (app_config e))
                  ++ "/BC-" ++ code ++ "-" ++ status ++ ".html")) ;;
  filled_template <- lift (substitute_template_parts e template) ;;
  (* get template vars from filing *)
  ' (filing, business, leg_tmz_filing_date, leg_tmz_effective_date) <-
    lift (get_filing_info e (EmailInfo.filingId email_info)) ;;
  filing_name <- lift (filing_name (Filing.filing_type filing)) ;;
  (* render template with vars *)
  jnja_template <- lift (jinja_Template e filled_template) ;;
  args <- lift (render_arguments e filing_type filing business
                  leg_tmz_filing_date leg_tmz_effective_date filing_name) ;;
  html_out <- lift (jnja_template args) ;;
  (* get attachments *)
  pdfs <- _get_pdfs e status token business filing leg_tmz_filing_date ;;
  (* get recipients *)
  recipients <- lift (get_recipients e status (Filing.filing_json filing) token) ;;
  (* assign subject *)
  subject <- lift (subject_line status filing_type filing business) ;;
  ret {| recipients := recipients;
         requestBy := "BCRegistries@gov.bc.ca";
         msg_content := {| subject := subject;
                           body := html_out;
                           attachments := pdfs |} |}.

(* ===================================================================== *)
(** ** A concrete deployment, for running the processor *)
(* ===================================================================== *)

Module Sample.

Definition cfg : config :=
  {| LEGAL_API_URL := Some "https://legal-api/api/v1";
     PAY_API_URL := Some "https://pay-api/api/v1/payment-requests";
     TEMPLATE_PATH := Some "/opt/templates";
     DASHBOARD_URL := Some "https://dashboard/" |}.

(** The submission of a filing of the given type; [name_request] is the
    [nameRequest] object of an incorporation application. *)
Definition submission (filing_type : string) (name_request : value) : value :=
  VDict [ ("filing",
           VDict [ ("header", VDict [ ("name", VStr filing_type) ]);
                   ("business", VDict [ ("identifier", VStr "BC1234567") ]);
                   (filing_type, VDict [ ("nameRequest", name_request) ]) ]) ].

Definition filing (filing_type : string) (name_request : value) : Filing.t :=
  {| Filing.id := 42;
     Filing.filing_type := filing_type;
     Filing.filing_json := submission filing_type name_request;
     Filing.json := submission filing_type name_request;
     Filing.payment_token := Some "7001" |}.

Definition business (legal_name : list (string * value)) : value :=
  VDict (("identifier", VStr "BC1234567") :: legal_name).

(** An incorporation application with the requested name "Acme Co", and
    one for a numbered company. *)
Definition acme : Filing.t :=
  filing "incorporationApplication" (VDict [("legalName", VStr "Acme Co")]).

Definition numbered : Filing.t :=
  filing "incorporationApplication" (VDict []).

Definition pdf : list byte := [x25; x50; x44; x46]%byte.

(** A deployment in which the filing store answers with [f] and [b], every
    template exists, and the document and payment services answer with the
    given status codes. *)
Definition deployment (f : Filing.t) (b : value) (get_status post_status : Z)
    : env :=
  {| app_config := cfg;
     read_text := fun path => Ok ("{% include header %}" ++ path);
     substitute_template_parts := fun template => Ok ("<html>" ++ template);
     get_filing_info := fun _ => Ok (f, b, "2020-05-05 1:41 PM", "2020-05-06");
     jinja_Template := fun source =>
       Ok (fun args => Ok (source ++ "|" ++ r_email_header args));
     get_recipients := fun _ _ _ => Ok (VStr "owner@example.com");
     requests_get := fun _ _ => Ok (mkResponse get_status pdf);
     requests_post := fun _ _ _ => Ok (mkResponse post_status pdf) |}.

(** An incorporation application whose submission lacks its own section. *)
Definition bare : Filing.t :=
  {| Filing.id := 42;
     Filing.filing_type := "incorporationApplication";
     Filing.filing_json := VDict [ ("filing", VDict []) ];
     Filing.json := VDict [ ("filing", VDict []) ];
     Filing.payment_token := Some "7001" |}.

(** The document URL of the sample filing. *)
Definition url : string :=
  "https://legal-api/api/v1/businesses/BC1234567/filings/42".

Definition request (filing_type status : string) : EmailInfo.t :=
  {| EmailInfo.type := filing_type;
     EmailInfo.option := status;
     EmailInfo.filingId := VInt 42 |}.

End Sample.

(* ===================================================================== *)
(** ** The specification's vocabulary *)
(* ===================================================================== *)

(** *** The readable filing name, as the specification words it *)

(** "insert a space before every subsequent internal uppercase letter" *)
Fixpoint space_before_upper (s : string) : string :=
  match s with
  | EmptyString => EmptyString
  | String c s' =>
      if PyStr.is_upper c
      then String " " (String c (space_before_upper s'))
      else String c (space_before_upper s')
  end.

(** "capitalize its first letter, and insert a space before ..." *)
Definition humanize (tag : string) : string :=
  match tag with
  | EmptyString => EmptyString
  | String c rest => String (PyStr.upper_char c) (space_before_upper rest)
  end.

Fixpoint all_letters (s : string) : bool :=
  match s with
  | EmptyString => true
  | String c s' => PyStr.is_letter c && all_letters s'
  end.

(** A camelCase tag: letters only, the first one lowercase. *)
Definition camel_case (tag : string) : bool :=
  match tag with
  | EmptyString => false
  | String c rest => PyStr.is_lower c && all_letters rest
  end.

(** The tag has one character, or its second character is a lowercase
    letter. *)
Definition second_is_lower (tag : string) : bool :=
  match tag with
  | String _ (String l _) => PyStr.is_lower l
  | String _ EmptyString => true
  | EmptyString => false
  end.

Definition starts_upper_or_empty (s : string) : bool :=
  match s with
  | EmptyString => true
  | String c _ => PyStr.is_upper c
  end.

(** *** The fetch attempts of the attachment assembler *)

Inductive fetch : Type := FilingPdf | ReceiptPdf | NoaPdf | CertificatePdf.

(** The fixed sequence of attempts of each state. *)
Definition fetches (status : string) (filing : Filing.t) : list fetch :=
  ((if String.eqb status Filing.Status.PAID then [FilingPdf; ReceiptPdf] else [])
   ++
   (if String.eqb status Filing.Status.COMPLETED
    then NoaPdf ::
         (if String.eqb (Filing.filing_type filing) "incorporationApplication"
          then [CertificatePdf] else [])
    else []))%list.

Definition success_code (f : fetch) : Z :=
  match f with
  | ReceiptPdf => HTTPStatus.CREATED
  | _ => HTTPStatus.OK
  end.

Definition slot_file_name (f : fetch) (name : string) : string :=
  match f with
  | FilingPdf => "Notice of " ++ name ++ ".pdf"
  | ReceiptPdf => "Receipt.pdf"
  | NoaPdf => "Notice of Articles.pdf"
  | CertificatePdf => "Incorporation Certificate.pdf"
  end.

Definition slot_order (f : fetch) : string :=
  match f with
  | FilingPdf | NoaPdf => "1"
  | ReceiptPdf | CertificatePdf => "2"
  end.

Definition log_format (f : fetch) : string :=
  match f with
  | FilingPdf => "Failed to get pdf for filing: %s"
  | ReceiptPdf => "Failed to get receipt pdf for filing: %s"
  | NoaPdf => "Failed to get noa pdf for filing: %s"
  | CertificatePdf => "Failed to get certificate pdf for filing: %s"
  end.

Definition alert_text (f : fetch) (id : Z) : string :=
  "Email Queue: filing id=" ++ Py.str_int id ++ ", error=" ++
  match f with
  | FilingPdf => "pdf"
  | ReceiptPdf => "receipt"
  | NoaPdf => "noa"
  | CertificatePdf => "certificate"
  end ++ " generation".

Definition fetch_eqb (f g : fetch) : bool :=
  match f, g with
  | FilingPdf, FilingPdf | ReceiptPdf, ReceiptPdf
  | NoaPdf, NoaPdf | CertificatePdf, CertificatePdf => true
  | _, _ => false
  end.

(** The alert of fetch [f] for filing [id]. *)
Definition alert_of (f : fetch) (id : Z) (ev : event) : bool :=
  match ev with
  | CaptureMessage text _ => String.eqb text (alert_text f id)
  | _ => false
  end.

Definition is_post (ev : event) : bool :=
  match ev with
  | Post _ _ _ => true
  | _ => false
  end.

(** "returning a non-2xx (non-success) status" *)
Definition non_2xx (r : response) : Prop :=
  (status_code r < 200 \/ 300 <= status_code r)%Z.

(** A success status as the specification reads it: any 2xx. *)
Definition is_2xx (r : response) : bool :=
  (200 <=? status_code r)%Z && (status_code r <? 300)%Z.

Section Fetches.
Variables (e : env) (token : string) (filing : Filing.t)
          (filing_date_time : string).
(** The document URL, and the name sent to the payment service. *)
Variables (url : string) (cn : value).

Definition receipt_body : value :=
  VDict [ ("corpName", cn); ("filingDateTime", VStr filing_date_time) ].

(** The request of each attempt ... *)
Definition request_event (f : fetch) : event :=
  match f with
  | FilingPdf => Get url (request_headers token)
  | ReceiptPdf => Post (receipt_url e filing) receipt_body (request_headers token)
  | NoaPdf => Get (url ++ "?type=noa") (request_headers token)
  | CertificatePdf => Get (url ++ "?type=certificate") (request_headers token)
  end.

(** ... and what the service answers to it. *)
Definition answer (f : fetch) : result response :=
  match f with
  | FilingPdf => requests_get e url (request_headers token)
  | ReceiptPdf =>
      requests_post e (receipt_url e filing) receipt_body (request_headers token)
  | NoaPdf => requests_get e (url ++ "?type=noa") (request_headers token)
  | CertificatePdf =>
      requests_get e (url ++ "?type=certificate") (request_headers token)
  end.

(** The attachment slot of an attempt: filled when the answer carries the
    expected status, empty otherwise. *)
Definition slot (name : string) (f : fetch) (r : response) : list attachment :=
  if (status_code r =? success_code f)%Z
  then [ {| fileName := slot_file_name f name;
            fileBytes := base64.b64encode (content r);
            fileUrl := "";
            attachOrder := slot_order f |} ]
  else [].

(** What a failed attempt reports: one log line, one alert. *)
Definition failure_events (f : fetch) (r : response) : list event :=
  if (status_code r =? success_code f)%Z
  then []
  else [ Log "error" (log_format f) (ArgFilingId (Filing.id filing));
         CaptureMessage (alert_text f (Filing.id filing)) "error" ].

Definition fetch_events (R : fetch -> response) (f : fetch) : list event :=
  request_event f :: failure_events f (R f).
End Fetches.

(** The answers of the sample deployment. *)
Definition sample_answers (get_status post_status : Z) (f : fetch) : response :=
  match f with
  | ReceiptPdf => mkResponse post_status Sample.pdf
  | _ => mkResponse get_status Sample.pdf
  end.

(** *** The receipt's company name and the subject table *)

(** "if filing type is incorporation-application, use the name-request's
    legal name from the filing payload, defaulting to "Numbered Company"
    when absent; otherwise use the business legal name" *)
Definition receipt_corp_name (filing_type : string)
    (name_request_entries business_entries : list (string * value)) : value :=
  if String.eqb filing_type "incorporationApplication"
  then match Py.assoc "legalName" name_request_entries with
       | Some legal_name => legal_name
       | None => VStr "Numbered Company"
       end
  else match Py.assoc "legalName" business_entries with
       | Some legal_name => legal_name
       | None => VNone
       end.

(** The rule table of the subject composer: status, filing type, base
    subject. *)
Definition rule_table : list (string * string * string) :=
  [ ("paid", "incorporationApplication",
     "Confirmation of Filing from the Business Registry");
    ("paid", "changeOfAddress", "Confirmation of Address Change");
    ("paid", "changeOfDirectors", "Confirmation of Director Change");
    ("paid", "annualReport", "Confirmation of Annual Report");
    ("completed", "incorporationApplication",
     "Incorporation Documents from the Business Registry");
    ("completed", "changeOfAddress", "Notice of Articles");
    ("completed", "changeOfDirectors", "Notice of Articles") ].

(** The dictionary the legal name is looked up in: the name request of an
    incorporation application, the business otherwise. *)
Definition legal_name_source (filing : Filing.t) (business : value)
    (src : list (string * value)) : Prop :=
  if String.eqb (Filing.filing_type filing) "incorporationApplication"
  then name_request filing = Ok (VDict src)
  else business = VDict src.

(** *** Events and texts *)

(** The list a run returned, empty when it raised. *)
Definition returned {A} (r : result (list A)) : list A :=
  match r with
  | inr l => l
  | inl _ => []
  end.

Definition is_request (ev : event) : bool :=
  match ev with
  | Get _ _ | Post _ _ _ => true
  | _ => false
  end.

Definition is_alert (ev : event) : bool :=
  match ev with
  | CaptureMessage _ _ => true
  | _ => false
  end.

Definition is_log (ev : event) : bool :=
  match ev with
  | Log _ _ _ => true
  | _ => false
  end.

(** What the assembler may emit for a filing: requests with the bearer
    headers, error logs about the filing, alerts of level "error". *)
Definition assembler_event (token : string) (filing : Filing.t) (ev : event)
    : Prop :=
  match ev with
  | Get _ hdrs | Post _ _ hdrs => hdrs = request_headers token
  | Log level _ arg => level = "error" /\ arg = ArgFilingId (Filing.id filing)
  | CaptureMessage _ level => level = "error"
  end.

Fixpoint remove_spaces (s : string) : string :=
  match s with
  | EmptyString => EmptyString
  | String c s' =>
      if Ascii.eqb c " " then remove_spaces s' else String c (remove_spaces s')
  end.

(** Every character of [s] satisfies [p]. *)
Fixpoint all_chars (p : ascii -> bool) (s : string) : bool :=
  match s with
  | EmptyString => true
  | String c s' => p c && all_chars p s'
  end.

(** A digit of the base64 alphabet, or the padding character. *)
Definition is_b64_char (c : ascii) : bool :=
  Py.has_char c base64.alphabet || Ascii.eqb c "=".

(* ===================================================================== *)
(** ** Running the model *)
(* ===================================================================== *)

Example b64encode_three_bytes : base64.b64encode [x4d; x61; x6e]%byte = "TWFu".
Proof. reflexivity. Qed.

Example b64encode_two_bytes : base64.b64encode [x4d; x61]%byte = "TWE=".
Proof. reflexivity. Qed.

Example b64encode_one_byte : base64.b64encode [x4d]%byte = "TQ==".
Proof. reflexivity. Qed.

Example str_of_nested_value :
  Py.str (VDict [("a", VList [VInt 1; VStr "x"; VNone; VBool true])])
  = "{'a': [1, 'x', None, True]}".
Proof. reflexivity. Qed.

Example filing_names_of_the_converter_keys :
  List.map (fun kv => filing_name (fst kv)) FILING_TYPE_CONVERTER
  = [ Ok "Incorporation Application"; Ok "Annual Report";
      Ok "Change Of Directors"; Ok "Change Of Address" ].
Proof. reflexivity. Qed.

(** The first end-to-end scenario of the specification: a paid
    incorporation application named "Acme Co", both fetches succeeding. *)
Example scenario_paid_incorporation :
  let f := Sample.filing "incorporationApplication"
             (VDict [("legalName", VStr "Acme Co")]) in
  let b := Sample.business [] in
  exists m w,
    process (Sample.deployment f b 200 201)
      (Sample.request "incorporationApplication" "paid") "tok" [] = (Ok m, w)
    /\ subject (msg_content m)
       = "Acme Co - Confirmation of Filing from the Business Registry"
    /\ List.map (fun a => (fileName a, attachOrder a)) (attachments (msg_content m))
       = [ ("Notice of Incorporation Application.pdf", "1"); ("Receipt.pdf", "2") ].
Proof. cbv zeta. eexists. eexists. split; [ vm_compute; reflexivity | split; reflexivity ]. Qed.

(** The second one: a completed change of address whose notice of articles
    cannot be fetched (503). *)
Example scenario_completed_address_noa_down :
  let f := Sample.filing "changeOfAddress" VNone in
  let b := Sample.business [] in
  exists m w,
    process (Sample.deployment f b 503 201)
      (Sample.request "changeOfAddress" "completed") "tok" [] = (Ok m, w)
    /\ subject (msg_content m) = "Notice of Articles"
    /\ attachments (msg_content m) = []
    /\ List.filter (fun ev => match ev with CaptureMessage _ _ => true | _ => false end) w
       = [ CaptureMessage "Email Queue: filing id=42, error=noa generation" "error" ].
Proof. cbv zeta. eexists. eexists. split; [ vm_compute; reflexivity | repeat split; reflexivity ]. Qed.

(* ===================================================================== *)
(** ** The readable filing name *)
(* ===================================================================== *)

Section Findall.
Import PyStr.

Lemma span_non_upper_spec s w r :
  span_non_upper s = (w, r) ->
  s = w ++ r /\ starts_upper_or_empty r = true
  /\ space_before_upper s = w ++ space_before_upper r
  /\ (String.length r <= String.length s)%nat.
Proof.
  revert w r. induction s as [|c s IH]; intros w r H; simpl in H.
  - inversion H; subst. simpl. auto.
  - destruct (is_upper c) eqn:Hc.
    + inversion H; subst. simpl. rewrite Hc. auto.
    + destruct (span_non_upper s) as [w' r'] eqn:Hs.
      inversion H; subst. destruct (IH _ _ eq_refl) as (E & U & Sp & L).
      simpl. rewrite Hc. repeat split; auto.
      * now rewrite <- E.
      * now rewrite Sp.
Qed.

(** The scan never runs out of steps: any budget that covers the length
    of the string gives the same matches. *)
Lemma findall_words_fuel n : forall m s,
  (String.length s <= n)%nat -> (String.length s <= m)%nat ->
  findall_words_from n s = findall_words_from m s.
Proof.
  induction n as [|n IH]; intros m s Hn Hm.
  - destruct s; simpl in Hn; [|lia]. destruct m; reflexivity.
  - destruct s as [|c s]; [destruct m; reflexivity|].
    destruct m as [|m]; simpl in Hm; [lia|]. simpl in Hn. simpl.
    destruct (is_letter c).
    + destruct (span_non_upper s) as [w r] eqn:Hs.
      apply span_non_upper_spec in Hs. destruct Hs as (_ & _ & _ & L).
      f_equal. apply IH; lia.
    + apply IH; lia.
Qed.

Lemma findall_words_cons c s :
  findall_words (String c s) =
    if is_letter c
    then let (w, r) := span_non_upper s in String c w :: findall_words r
    else findall_words s.
Proof.
  unfold findall_words. simpl.
  destruct (is_letter c); [|reflexivity].
  destruct (span_non_upper s) as [w r] eqn:Hs.
  apply span_non_upper_spec in Hs. destruct Hs as (_ & _ & _ & L).
  f_equal. apply findall_words_fuel; lia.
Qed.

Lemma is_upper_letter c : is_upper c = true -> is_letter c = true.
Proof. unfold is_letter. intros ->. apply orb_true_r. Qed.

Lemma is_lower_letter c : is_lower c = true -> is_letter c = true.
Proof. unfold is_letter. intros ->. reflexivity. Qed.

Lemma is_lower_not_upper c : is_lower c = true -> is_upper c = false.
Proof.
  unfold is_lower, is_upper. cbv zeta. intros H.
  apply andb_true_iff in H. destruct H as [H1 H2].
  apply Nat.leb_le in H1.
  apply andb_false_iff. right. apply Nat.leb_gt. lia.
Qed.

Lemma join_cons sep p ps :
  join sep (p :: ps) = p ++ match ps with [] => "" | _ => sep ++ join sep ps end.
Proof.
  destruct ps; simpl; [|reflexivity].
  induction p; simpl; congruence.
Qed.

(** From an uppercase letter on, the words joined by spaces are the string
    with a space before each uppercase letter, less the first space. *)
Lemma words_from_upper n : forall s,
  (String.length s <= n)%nat ->
  starts_upper_or_empty s = true ->
  space_before_upper s =
    match findall_words s with
    | [] => ""
    | ws => " " ++ join " " ws
    end.
Proof.
  induction n as [|n IH]; intros s Hn Hs.
  - destruct s; simpl in Hn; [reflexivity|lia].
  - destruct s as [|c s]; [reflexivity|].
    simpl in Hs, Hn. rewrite findall_words_cons, (is_upper_letter _ Hs).
    destruct (span_non_upper s) as [w r] eqn:Hsp.
    apply span_non_upper_spec in Hsp. destruct Hsp as (E & U & Sp & L).
    rewrite join_cons. simpl. rewrite Hs, Sp.
    rewrite (IH r) by (auto; lia).
    destruct (findall_words r); reflexivity.
Qed.

Lemma words_from_lower l s :
  is_lower l = true ->
  join " " (findall_words (String l s)) = space_before_upper (String l s).
Proof.
  intros Hl. rewrite findall_words_cons, (is_lower_letter _ Hl).
  destruct (span_non_upper s) as [w r] eqn:Hsp.
  apply span_non_upper_spec in Hsp. destruct Hsp as (E & U & Sp & L).
  rewrite join_cons. simpl. rewrite (is_lower_not_upper _ Hl), Sp.
  rewrite (words_from_upper (String.length r) r) by auto.
  destruct (findall_words r); reflexivity.
Qed.

End Findall.

(** C6, as stated, fails on a camelCase tag whose first word is a single
    letter: the slice [filing_type[1:]] then starts with the uppercase
    letter, which opens the first match, so no space is put before it. *)
Lemma one_letter_first_word_gets_no_space :
  camel_case "eFiling" = true
  /\ filing_name "eFiling" = Ok "EFiling"
  /\ humanize "eFiling" = "E Filing"
  /\ filing_name "eFiling" <> Ok (humanize "eFiling").
Proof. repeat split; try reflexivity. discriminate. Qed.

(** C6 (amended): for every tag whose second character is a lowercase
    letter (or that has one character only), the readable name used for the
    email header and for the "Notice of ... .pdf" file name is the tag with
    its first letter capitalized and a space before every later uppercase
    letter. *)
Theorem filing_name_humanize tag :
  second_is_lower tag = true -> filing_name tag = Ok (humanize tag).
Proof.
  destruct tag as [|c [|l s]]; simpl; try discriminate; [reflexivity|].
  intros Hl. unfold filing_name. rewrite (words_from_lower l s Hl). reflexivity.
Qed.

Lemma filing_name_humanize_witness :
  second_is_lower "changeOfDirectors" = true
  /\ filing_name "changeOfDirectors" = Ok "Change Of Directors".
Proof.
  split; [reflexivity|].
  exact (filing_name_humanize "changeOfDirectors" eq_refl).
Defined.

(* ===================================================================== *)
(** ** The attachment assembler *)
(* ===================================================================== *)

Ltac run_monad :=
  unfold http_get, http_post, logger_error, logger_debug, capture_message;
  unfold bind, lift, ret, emit; unfold Ok, Raise in *; cbn beta iota.

(** What [_get_pdfs] does, attempt by attempt: it returns the slots of its
    attempts in their fixed order and emits, for each attempt, the request
    followed by the report of its failure, if it failed. *)
Lemma get_pdfs_run e status token business filing fdt w url cn name
    (R : fetch -> response) :
  (fetches status filing <> [] -> filing_url e business filing = Ok url) ->
  (status = Filing.Status.PAID -> corp_name filing business = Ok cn) ->
  (status = Filing.Status.PAID ->
   filing_name (Filing.filing_type filing) = Ok name) ->
  (forall f, In f (fetches status filing) ->
             answer e token filing fdt url cn f = Ok (R f)) ->
  _get_pdfs e status token business filing fdt w =
    (Ok (flat_map (fun f => slot name f (R f)) (fetches status filing)),
     (w ++ flat_map (fetch_events e token filing fdt url cn R)
             (fetches status filing))%list).
Proof.
  intros Hurl Hcn Hname Hans.
  unfold _get_pdfs, fetches in *.
  destruct (String.eqb status Filing.Status.PAID) eqn:Hp.
  - apply String.eqb_eq in Hp. subst status.
    change (String.eqb Filing.Status.PAID Filing.Status.COMPLETED) with false in *.
    rewrite app_nil_r in *.
    specialize (Hurl ltac:(discriminate)). specialize (Hcn eq_refl).
    specialize (Hname eq_refl).
    pose proof (Hans FilingPdf ltac:(simpl; auto)) as H1.
    pose proof (Hans ReceiptPdf ltac:(simpl; auto)) as H2.
    simpl in H1, H2. run_monad.
    rewrite Hurl, H1, Hcn, Hname. cbn beta iota.
    unfold fetch_events, slot, failure_events, success_code. simpl flat_map.
    destruct (status_code (R FilingPdf) =? HTTPStatus.OK)%Z;
      cbn beta iota; unfold receipt_body in H2; rewrite H2; cbn beta iota;
      destruct (status_code (R ReceiptPdf) =? HTTPStatus.CREATED)%Z;
      cbn beta iota; simpl; rewrite <- ?app_assoc; reflexivity.
  - destruct (String.eqb status Filing.Status.COMPLETED) eqn:Hc.
    + simpl app in *. specialize (Hurl ltac:(discriminate)).
      pose proof (Hans NoaPdf ltac:(simpl; auto)) as H1. simpl in H1.
      run_monad. rewrite Hurl, H1. cbn beta iota.
      unfold fetch_events, slot, failure_events, success_code.
      destruct (String.eqb (Filing.filing_type filing) "incorporationApplication")
        eqn:Hia.
      * pose proof (Hans CertificatePdf ltac:(simpl; auto)) as H2. simpl in H2.
        simpl flat_map.
        destruct (status_code (R NoaPdf) =? HTTPStatus.OK)%Z;
          cbn beta iota; rewrite H2; cbn beta iota;
          destruct (status_code (R CertificatePdf) =? HTTPStatus.OK)%Z;
          cbn beta iota; simpl; rewrite <- ?app_assoc; reflexivity.
      * simpl flat_map.
        destruct (status_code (R NoaPdf) =? HTTPStatus.OK)%Z;
          cbn beta iota; simpl; rewrite <- ?app_assoc; reflexivity.
    + run_monad. simpl. rewrite app_nil_r. reflexivity.
Qed.

Lemma eqb_append_l p a b : String.eqb (p ++ a) (p ++ b) = String.eqb a b.
Proof.
  induction p as [|c p IH]; simpl; [reflexivity|].
  now rewrite Ascii.eqb_refl.
Qed.

Lemma alert_text_eqb f g id :
  String.eqb (alert_text g id) (alert_text f id) = fetch_eqb g f.
Proof.
  unfold alert_text.
  rewrite !eqb_append_l. destruct f, g; reflexivity.
Qed.

Lemma non_2xx_fails f r :
  non_2xx r -> (status_code r =? success_code f)%Z = false.
Proof.
  unfold non_2xx. intros H. apply Z.eqb_neq.
  destruct f; unfold success_code, HTTPStatus.OK, HTTPStatus.CREATED; lia.
Qed.

Lemma fetches_cases status filing :
  fetches status filing = [FilingPdf; ReceiptPdf] /\ status = Filing.Status.PAID
  \/ fetches status filing = [NoaPdf; CertificatePdf]
  \/ fetches status filing = [NoaPdf]
  \/ fetches status filing = [].
Proof.
  unfold fetches.
  destruct (String.eqb status Filing.Status.PAID) eqn:Hp.
  - apply String.eqb_eq in Hp. subst. left. split; reflexivity.
  - right. destruct (String.eqb status Filing.Status.COMPLETED); simpl; auto.
    destruct (String.eqb (Filing.filing_type filing) "incorporationApplication");
      auto.
Qed.

Lemma notice_not_receipt name : "Notice of " ++ name ++ ".pdf" <> "Receipt.pdf".
Proof. discriminate. Qed.

Lemma get_pdfs_failed_fetch e status token business filing fdt w url cn name
    (R : fetch -> response) (f : fetch) :
  filing_url e business filing = Ok url ->
  (status = Filing.Status.PAID -> corp_name filing business = Ok cn) ->
  (status = Filing.Status.PAID ->
   filing_name (Filing.filing_type filing) = Ok name) ->
  (forall g, In g (fetches status filing) ->
             answer e token filing fdt url cn g = Ok (R g)) ->
  In f (fetches status filing) ->
  non_2xx (R f) ->
  let pdfs := flat_map (fun g => slot name g (R g)) (fetches status filing) in
  let evs := flat_map (fetch_events e token filing fdt url cn R)
               (fetches status filing) in
  _get_pdfs e status token business filing fdt w = (Ok pdfs, (w ++ evs)%list)
  /\ ~ In (slot_file_name f name) (List.map fileName pdfs)
  /\ In (Log "error" (log_format f) (ArgFilingId (Filing.id filing))) evs
  /\ List.filter (alert_of f (Filing.id filing)) evs
     = [ CaptureMessage (alert_text f (Filing.id filing)) "error" ]
  /\ (forall g, In g (fetches status filing) -> In (request_event e token filing fdt url cn g) evs).
Proof.
  intros Hurl Hcn Hname Hans Hf Hfail pdfs evs.
  split.
  { apply get_pdfs_run; auto. }
  subst pdfs evs.
  assert (Hsub : forall g, In g (fetches status filing) ->
            In (request_event e token filing fdt url cn g)
               (flat_map (fetch_events e token filing fdt url cn R)
                  (fetches status filing))).
  { intros g Hg. apply in_flat_map. exists g. split; [assumption|].
    unfold fetch_events. left. reflexivity. }
  assert (Hlog : In (Log "error" (log_format f) (ArgFilingId (Filing.id filing)))
            (flat_map (fetch_events e token filing fdt url cn R)
               (fetches status filing))).
  { apply in_flat_map. exists f. split; [assumption|].
    unfold fetch_events, failure_events. rewrite (non_2xx_fails f _ Hfail).
    right. left. reflexivity. }
  repeat split; try assumption.
  - (* the slot is not in the result *)
    intros Hin. apply in_map_iff in Hin. destruct Hin as (a & Ha & Hin).
    apply in_flat_map in Hin. destruct Hin as (g & Hg & Hin).
    unfold slot in Hin.
    destruct (status_code (R g) =? success_code g)%Z eqn:Hc; [|destruct Hin].
    destruct Hin as [<-|[]]. simpl in Ha.
    assert (g = f).
    { destruct (fetches_cases status filing) as [[E _]|[E|[E|E]]];
        rewrite E in Hg, Hf; simpl in Hg, Hf;
        repeat match goal with
               | H : _ \/ _ |- _ => destruct H
               | H : False |- _ => destruct H
               end; subst; try reflexivity; simpl in Ha; discriminate. }
    subst g. rewrite (non_2xx_fails f _ Hfail) in Hc. discriminate.
  - (* exactly one alert for the fetch *)
    pose proof (non_2xx_fails f _ Hfail) as Hc.
    destruct (fetches_cases status filing) as [[E _]|[E|[E|E]]];
      rewrite E in Hf |- *; simpl in Hf;
      repeat match goal with
             | H : _ \/ _ |- _ => destruct H
             | H : False |- _ => destruct H
             end; subst;
      unfold fetch_events, failure_events; simpl flat_map;
      cbn [success_code] in Hc; rewrite Hc;
      repeat match goal with
             | |- context [(status_code ?r =? ?c)%Z] =>
                 destruct (status_code r =? c)%Z
             end;
      repeat (progress (cbn [filter app alert_of fetch_eqb];
                        rewrite ?alert_text_eqb));
      reflexivity.
Qed.

(* ===================================================================== *)
(** ** The build around the attachment assembler *)
(* ===================================================================== *)

Section Build.
Variables (e : env) (email_info : EmailInfo.t) (token : string).

(** The stages around the attachment assembler go through. *)
Variables (code template filled : string) (filing : Filing.t)
          (business : value) (filing_date effective_date name : string)
          (jnja_template : render_args -> result string)
          (args : render_args) (html : string) (rcp : value) (subj : string).
Hypothesis Hcode : converter_code (EmailInfo.type email_info) = Ok code.
Hypothesis Htemplate :
  read_text e (Py.str_opt (TEMPLATE_PATH (app_config e))
               ++ "/BC-" ++ code ++ "-" ++ EmailInfo.option email_info
               ++ ".html") = Ok template.
Hypothesis Hfilled : substitute_template_parts e template = Ok filled.
Hypothesis Hinfo :
  get_filing_info e (EmailInfo.filingId email_info)
  = Ok (filing, business, filing_date, effective_date).
Hypothesis Hname : filing_name (Filing.filing_type filing) = Ok name.
Hypothesis Hjinja : jinja_Template e filled = Ok jnja_template.
Hypothesis Hargs :
  render_arguments e (EmailInfo.type email_info) filing business
    filing_date effective_date name = Ok args.
Hypothesis Hhtml : jnja_template args = Ok html.
Hypothesis Hrcp :
  get_recipients e (EmailInfo.option email_info) (Filing.filing_json filing)
    token = Ok rcp.
Hypothesis Hsubj :
  subject_line (EmailInfo.option email_info) (EmailInfo.type email_info)
    filing business = Ok subj.

(** Then the build returns a message as soon as the assembler returns its
    attachments, and the message carries them as they are. *)
Lemma process_run w pdfs w' :
  _get_pdfs e (EmailInfo.option email_info) token business filing filing_date
    (w ++ [ Log "debug" "filing_notification: %s" (ArgEmailInfo email_info) ])%list
  = (Ok pdfs, w') ->
  process e email_info token w
  = (Ok {| recipients := rcp;
           requestBy := "BCRegistries@gov.bc.ca";
           msg_content := {| subject := subj;
                             body := html;
                             attachments := pdfs |} |}, w').
Proof.
  intros Hpdfs. unfold process, logger_debug.
  unfold bind at 1. unfold emit at 1. cbn beta iota delta [Ok].
  unfold bind, lift.
  rewrite Hcode. cbn beta iota delta [Ok].
  rewrite Htemplate. cbn beta iota delta [Ok].
  rewrite Hfilled. cbn beta iota delta [Ok].
  rewrite Hinfo. cbn beta iota delta [Ok].
  rewrite Hname. cbn beta iota delta [Ok].
  rewrite Hjinja. cbn beta iota delta [Ok].
  rewrite Hargs. cbn beta iota delta [Ok].
  rewrite Hhtml. cbn beta iota delta [Ok].
  rewrite Hpdfs. cbn beta iota delta [Ok].
  rewrite Hrcp. cbn beta iota delta [Ok].
  rewrite Hsubj. reflexivity.
Qed.

(** C3: when the other stages of the build go through and every fetch is
    answered, a fetch [f] answered with a non-2xx status does not abort the
    build: the message is returned with the recipients, subject and body of
    the other stages and with the slots of the fetches in their order, the
    slot of [f] being absent; the failure is logged with the filing
    identifier, exactly one alert of level "error" is captured for [f], and
    every fetch of the state is still requested. *)
Theorem failed_fetch_degrades_build w url cn (R : fetch -> response) (f : fetch) :
  filing_url e business filing = Ok url ->
  (EmailInfo.option email_info = Filing.Status.PAID ->
   corp_name filing business = Ok cn) ->
  (forall g, In g (fetches (EmailInfo.option email_info) filing) ->
             answer e token filing filing_date url cn g = Ok (R g)) ->
  In f (fetches (EmailInfo.option email_info) filing) ->
  non_2xx (R f) ->
  let pdfs := flat_map (fun g => slot name g (R g))
                (fetches (EmailInfo.option email_info) filing) in
  let evs := flat_map (fetch_events e token filing filing_date url cn R)
               (fetches (EmailInfo.option email_info) filing) in
  process e email_info token w
  = (Ok {| recipients := rcp;
           requestBy := "BCRegistries@gov.bc.ca";
           msg_content := {| subject := subj;
                             body := html;
                             attachments := pdfs |} |},
     (w ++ Log "debug" "filing_notification: %s" (ArgEmailInfo email_info)
        :: evs)%list)
  /\ ~ In (slot_file_name f name) (List.map fileName pdfs)
  /\ In (Log "error" (log_format f) (ArgFilingId (Filing.id filing))) evs
  /\ List.filter (alert_of f (Filing.id filing)) evs
     = [ CaptureMessage (alert_text f (Filing.id filing)) "error" ]
  /\ (forall g, In g (fetches (EmailInfo.option email_info) filing) ->
                In (request_event e token filing filing_date url cn g) evs).
Proof.
  intros Hurl Hcn Hans Hf Hfail pdfs evs.
  destruct (get_pdfs_failed_fetch e (EmailInfo.option email_info) token
              business filing filing_date
              (w ++ [ Log "debug" "filing_notification: %s"
                        (ArgEmailInfo email_info) ])%list
              url cn name R f Hurl Hcn (fun _ => Hname) Hans Hf Hfail)
    as (Hrun & Hrest).
  split; [|exact Hrest].
  rewrite (process_run w _ _ Hrun). fold evs.
  now rewrite <- app_assoc.
Qed.

End Build.

Lemma failed_fetch_degrades_build_witness :
  non_2xx (sample_answers 503 201 FilingPdf)
  /\ process (Sample.deployment Sample.acme (Sample.business []) 503 201)
       (Sample.request "incorporationApplication" "paid") "tok" []
     = (Ok {| recipients := VStr "owner@example.com";
              requestBy := "BCRegistries@gov.bc.ca";
              msg_content :=
                {| subject :=
                     "Acme Co - Confirmation of Filing from the Business Registry";
                   body := "<html>{% include header %}/opt/templates/BC-IA-paid.html|INCORPORATION APPLICATION";
                   attachments :=
                     [ {| fileName := "Receipt.pdf";
                          fileBytes := "JVBERg==";
                          fileUrl := "";
                          attachOrder := "2" |} ] |} |},
        [ Log "debug" "filing_notification: %s"
            (ArgEmailInfo (Sample.request "incorporationApplication" "paid"));
          Get Sample.url (request_headers "tok");
          Log "error" "Failed to get pdf for filing: %s" (ArgFilingId 42);
          CaptureMessage "Email Queue: filing id=42, error=pdf generation" "error";
          Post "https://pay-api/api/v1/payment-requests/7001/receipts"
            (VDict [ ("corpName", VStr "Acme Co");
                     ("filingDateTime", VStr "2020-05-05 1:41 PM") ])
            (request_headers "tok") ]).
Proof.
  assert (Hfail : non_2xx (sample_answers 503 201 FilingPdf)).
  { right. simpl. lia. }
  split; [exact Hfail|].
  assert (Hans : forall g,
            In g (fetches "paid" Sample.acme) ->
            answer (Sample.deployment Sample.acme (Sample.business []) 503 201)
              "tok" Sample.acme "2020-05-05 1:41 PM" Sample.url (VStr "Acme Co") g
            = Ok (sample_answers 503 201 g)).
  { intros g [<-|[<-|[]]]; reflexivity. }
  refine (let H :=
            failed_fetch_degrades_build
              (Sample.deployment Sample.acme (Sample.business []) 503 201)
              (Sample.request "incorporationApplication" "paid") "tok"
              _ _ _ _ _ _ _ _ _ _ _ _ _
              eq_refl eq_refl eq_refl eq_refl eq_refl eq_refl eq_refl eq_refl
              eq_refl eq_refl
              [] Sample.url (VStr "Acme Co") (sample_answers 503 201) FilingPdf
              eq_refl (fun _ => eq_refl) Hans (or_introl eq_refl) Hfail in _).
  destruct H as (Hrun & _). rewrite Hrun. reflexivity.
Defined.

(* ===================================================================== *)
(** ** The paid state *)
(* ===================================================================== *)

(** C4, as stated, fails when a fetch "succeeds" on any 2xx answer, as the
    specification has it: the receipt must be answered 201 and a document
    200.  With both fetches answered 200 the receipt is left out and
    reported; with the filing document answered 204 and the receipt 201
    the filing document is left out and reported. *)
Lemma other_2xx_answers_are_failures :
  is_2xx (sample_answers 200 200 FilingPdf) = true
  /\ is_2xx (sample_answers 200 200 ReceiptPdf) = true
  /\ _get_pdfs (Sample.deployment Sample.acme (Sample.business []) 200 200)
       "paid" "tok" (Sample.business []) Sample.acme "2020-05-05 1:41 PM" []
     = (Ok [ {| fileName := "Notice of Incorporation Application.pdf";
                fileBytes := "JVBERg==";
                fileUrl := "";
                attachOrder := "1" |} ],
        [ Get Sample.url (request_headers "tok");
          Post "https://pay-api/api/v1/payment-requests/7001/receipts"
            (VDict [ ("corpName", VStr "Acme Co");
                     ("filingDateTime", VStr "2020-05-05 1:41 PM") ])
            (request_headers "tok");
          Log "error" "Failed to get receipt pdf for filing: %s" (ArgFilingId 42);
          CaptureMessage "Email Queue: filing id=42, error=receipt generation"
            "error" ])
  /\ is_2xx (sample_answers 204 201 FilingPdf) = true
  /\ is_2xx (sample_answers 204 201 ReceiptPdf) = true
  /\ fst (_get_pdfs (Sample.deployment Sample.acme (Sample.business []) 204 201)
            "paid" "tok" (Sample.business []) Sample.acme
            "2020-05-05 1:41 PM" [])
     = Ok [ {| fileName := "Receipt.pdf";
               fileBytes := "JVBERg==";
               fileUrl := "";
               attachOrder := "2" |} ].
Proof. repeat split; vm_compute; reflexivity. Qed.

(** C4 (amended): in the state "paid", when the filing document is answered
    200, the assembler returns exactly the filing document with attach
    order 1 followed by the receipt with attach order 2 if the receipt is
    answered 201, and exactly the filing document, still with attach
    order 1, if the receipt is answered with any other status (every
    non-2xx one included). *)
Theorem paid_attachment_order e token business filing fdt w url cn name r1 r2 :
  filing_url e business filing = Ok url ->
  corp_name filing business = Ok cn ->
  filing_name (Filing.filing_type filing) = Ok name ->
  requests_get e url (request_headers token) = Ok r1 ->
  requests_post e (receipt_url e filing) (receipt_body fdt cn)
    (request_headers token) = Ok r2 ->
  status_code r1 = HTTPStatus.OK ->
  let primary := {| fileName := "Notice of " ++ name ++ ".pdf";
                    fileBytes := base64.b64encode (content r1);
                    fileUrl := "";
                    attachOrder := "1" |} in
  let receipt := {| fileName := "Receipt.pdf";
                    fileBytes := base64.b64encode (content r2);
                    fileUrl := "";
                    attachOrder := "2" |} in
  (status_code r2 = HTTPStatus.CREATED ->
   fst (_get_pdfs e Filing.Status.PAID token business filing fdt w)
   = Ok [primary; receipt])
  /\ (status_code r2 <> HTTPStatus.CREATED ->
      fst (_get_pdfs e Filing.Status.PAID token business filing fdt w)
      = Ok [primary]).
Proof.
  intros Hurl Hcn Hname H1 H2 Hok primary receipt.
  pose (R := fun f => match f with FilingPdf => r1 | _ => r2 end).
  assert (Hrun := get_pdfs_run e Filing.Status.PAID token business filing fdt w
                    url cn name R (fun _ => Hurl) (fun _ => Hcn) (fun _ => Hname)).
  assert (Hans : forall f, In f (fetches Filing.Status.PAID filing) ->
                   answer e token filing fdt url cn f = Ok (R f)).
  { intros f [<-|[<-|[]]]; simpl; assumption. }
  specialize (Hrun Hans). rewrite Hrun. simpl fst.
  change (fetches Filing.Status.PAID filing) with [FilingPdf; ReceiptPdf].
  unfold slot. simpl flat_map. cbn [R success_code].
  rewrite Hok, Z.eqb_refl.
  split; intros H.
  - rewrite H, Z.eqb_refl. reflexivity.
  - apply Z.eqb_neq in H. rewrite H. reflexivity.
Qed.

Lemma paid_attachment_order_witness :
  (fst (_get_pdfs (Sample.deployment Sample.acme (Sample.business []) 200 201)
          "paid" "tok" (Sample.business []) Sample.acme "2020-05-05 1:41 PM" [])
   = Ok [ {| fileName := "Notice of Incorporation Application.pdf";
             fileBytes := "JVBERg==";
             fileUrl := "";
             attachOrder := "1" |};
          {| fileName := "Receipt.pdf";
             fileBytes := "JVBERg==";
             fileUrl := "";
             attachOrder := "2" |} ])
  /\ (fst (_get_pdfs (Sample.deployment Sample.acme (Sample.business []) 200 503)
             "paid" "tok" (Sample.business []) Sample.acme "2020-05-05 1:41 PM" [])
      = Ok [ {| fileName := "Notice of Incorporation Application.pdf";
                fileBytes := "JVBERg==";
                fileUrl := "";
                attachOrder := "1" |} ]).
Proof.
  split.
  - apply (proj1 (paid_attachment_order
                    (Sample.deployment Sample.acme (Sample.business []) 200 201)
                    "tok" (Sample.business []) Sample.acme "2020-05-05 1:41 PM" []
                    Sample.url (VStr "Acme Co") "Incorporation Application"
                    (mkResponse 200 Sample.pdf) (mkResponse 201 Sample.pdf)
                    eq_refl eq_refl eq_refl eq_refl eq_refl eq_refl)).
    reflexivity.
  - apply (proj2 (paid_attachment_order
                    (Sample.deployment Sample.acme (Sample.business []) 200 503)
                    "tok" (Sample.business []) Sample.acme "2020-05-05 1:41 PM" []
                    Sample.url (VStr "Acme Co") "Incorporation Application"
                    (mkResponse 200 Sample.pdf) (mkResponse 503 Sample.pdf)
                    eq_refl eq_refl eq_refl eq_refl eq_refl eq_refl)).
    discriminate.
Defined.

(** In the paid state one receipt request goes out, carrying [cn]. *)
Lemma paid_receipt_request e token business filing fdt w url cn name r1 :
  filing_url e business filing = Ok url ->
  corp_name filing business = Ok cn ->
  filing_name (Filing.filing_type filing) = Ok name ->
  requests_get e url (request_headers token) = Ok r1 ->
  exists evs,
    snd (_get_pdfs e Filing.Status.PAID token business filing fdt w)
    = (w ++ evs)%list
    /\ List.filter is_post evs
       = [ Post (receipt_url e filing) (receipt_body fdt cn)
             (request_headers token) ].
Proof.
  intros Hurl Hcn Hname H1.
  unfold _get_pdfs.
  change (String.eqb Filing.Status.PAID Filing.Status.PAID) with true.
  change (String.eqb Filing.Status.PAID Filing.Status.COMPLETED) with false.
  run_monad. rewrite Hurl, H1, Hcn, Hname. cbn beta iota.
  unfold receipt_body.
  destruct (status_code r1 =? HTTPStatus.OK)%Z; cbn beta iota;
    (destruct (requests_post e _ _ _) as [x|r2]; cbn beta iota;
     [| destruct (status_code r2 =? HTTPStatus.CREATED)%Z; cbn beta iota ]);
    eexists; (split; [simpl; rewrite <- ?app_assoc; reflexivity|reflexivity]).
Qed.

Lemma corp_name_rule filing b nr :
  (Filing.filing_type filing = "incorporationApplication" ->
   name_request filing = Ok (VDict nr)) ->
  corp_name filing (VDict b)
  = Ok (receipt_corp_name (Filing.filing_type filing) nr b).
Proof.
  intros Hnr. unfold corp_name, receipt_corp_name.
  destruct (String.eqb (Filing.filing_type filing) "incorporationApplication")
    eqn:Hia.
  - apply String.eqb_eq in Hia. rewrite (Hnr Hia). simpl.
    destruct (Py.assoc "legalName" nr); reflexivity.
  - simpl. destruct (Py.assoc "legalName" b); reflexivity.
Qed.

(** The name request of a submission laid out as
    [{'filing': {'incorporationApplication': {'nameRequest': {...}}}}]. *)
Lemma name_request_of_payload filing fj f ia nr :
  Filing.filing_json filing = VDict fj ->
  Py.assoc "filing" fj = Some (VDict f) ->
  Py.assoc "incorporationApplication" f = Some (VDict ia) ->
  Py.assoc "nameRequest" ia = Some (VDict nr) ->
  name_request filing = Ok (VDict nr).
Proof.
  intros Hj Hf Hia Hnr. unfold name_request. rewrite Hj.
  cbn [Py.subscript]. rewrite Hf. cbn [rbind Ok Py.subscript].
  rewrite Hia. cbn [rbind Ok Py.subscript]. rewrite Hnr. reflexivity.
Qed.

(** C7: in the state "paid" exactly one receipt request is sent.  For an
    incorporation application whose stored submission holds the name
    request [nr] under filing / incorporationApplication / nameRequest, its
    [corpName] is the "legalName" entry of [nr], and "Numbered Company"
    when [nr] has none; for every other filing type it is the "legalName"
    entry of the business. *)
Theorem receipt_request_corp_name e token b fj f ia nr filing fdt w url name r1 :
  (Filing.filing_type filing = "incorporationApplication" ->
   Filing.filing_json filing = VDict fj
   /\ Py.assoc "filing" fj = Some (VDict f)
   /\ Py.assoc "incorporationApplication" f = Some (VDict ia)
   /\ Py.assoc "nameRequest" ia = Some (VDict nr)) ->
  filing_url e (VDict b) filing = Ok url ->
  filing_name (Filing.filing_type filing) = Ok name ->
  requests_get e url (request_headers token) = Ok r1 ->
  exists evs,
    snd (_get_pdfs e Filing.Status.PAID token (VDict b) filing fdt w)
    = (w ++ evs)%list
    /\ List.filter is_post evs
       = [ Post (receipt_url e filing)
             (VDict [ ("corpName",
                       if String.eqb (Filing.filing_type filing)
                            "incorporationApplication"
                       then match Py.assoc "legalName" nr with
                            | Some legal_name => legal_name
                            | None => VStr "Numbered Company"
                            end
                       else match Py.assoc "legalName" b with
                            | Some legal_name => legal_name
                            | None => VNone
                            end);
                      ("filingDateTime", VStr fdt) ])
             (request_headers token) ].
Proof.
  intros Hpayload Hurl Hname H1.
  assert (Hnr : Filing.filing_type filing = "incorporationApplication" ->
                name_request filing = Ok (VDict nr)).
  { intros Hia. destruct (Hpayload Hia) as (Hj & Hf & Hi & Hn).
    exact (name_request_of_payload filing fj f ia nr Hj Hf Hi Hn). }
  exact (paid_receipt_request e token (VDict b) filing fdt w url _ name r1
           Hurl (corp_name_rule filing b nr Hnr) Hname H1).
Qed.

Lemma receipt_request_corp_name_witness :
  List.filter is_post
    (snd (_get_pdfs (Sample.deployment Sample.acme (Sample.business []) 200 201)
            "paid" "tok" (Sample.business []) Sample.acme
            "2020-05-05 1:41 PM" []))
  = [ Post "https://pay-api/api/v1/payment-requests/7001/receipts"
        (VDict [ ("corpName", VStr "Acme Co");
                 ("filingDateTime", VStr "2020-05-05 1:41 PM") ])
        (request_headers "tok") ]
  /\ List.filter is_post
       (snd (_get_pdfs
               (Sample.deployment Sample.numbered (Sample.business []) 200 201)
               "paid" "tok" (Sample.business []) Sample.numbered
               "2020-05-05 1:41 PM" []))
     = [ Post "https://pay-api/api/v1/payment-requests/7001/receipts"
           (VDict [ ("corpName", VStr "Numbered Company");
                    ("filingDateTime", VStr "2020-05-05 1:41 PM") ])
           (request_headers "tok") ]
  /\ List.filter is_post
       (snd (_get_pdfs
               (Sample.deployment (Sample.filing "changeOfAddress" VNone)
                  (Sample.business [("legalName", VStr "Acme Ltd")]) 200 201)
               "paid" "tok" (Sample.business [("legalName", VStr "Acme Ltd")])
               (Sample.filing "changeOfAddress" VNone)
               "2020-05-05 1:41 PM" []))
     = [ Post "https://pay-api/api/v1/payment-requests/7001/receipts"
           (VDict [ ("corpName", VStr "Acme Ltd");
                    ("filingDateTime", VStr "2020-05-05 1:41 PM") ])
           (request_headers "tok") ].
Proof.
  split; [|split].
  - destruct (receipt_request_corp_name
                (Sample.deployment Sample.acme (Sample.business []) 200 201)
                "tok" [("identifier", VStr "BC1234567")]
                _ _ _ [("legalName", VStr "Acme Co")] Sample.acme
                "2020-05-05 1:41 PM" [] Sample.url "Incorporation Application"
                (mkResponse 200 Sample.pdf)
                (fun _ => conj eq_refl (conj eq_refl (conj eq_refl eq_refl)))
                eq_refl eq_refl eq_refl)
      as (evs & Hevs & Hpost).
    cbn [app] in Hevs. rewrite <- Hevs in Hpost. exact Hpost.
  - destruct (receipt_request_corp_name
                (Sample.deployment Sample.numbered (Sample.business []) 200 201)
                "tok" [("identifier", VStr "BC1234567")]
                _ _ _ [] Sample.numbered
                "2020-05-05 1:41 PM" [] Sample.url "Incorporation Application"
                (mkResponse 200 Sample.pdf)
                (fun _ => conj eq_refl (conj eq_refl (conj eq_refl eq_refl)))
                eq_refl eq_refl eq_refl)
      as (evs & Hevs & Hpost).
    cbn [app] in Hevs. rewrite <- Hevs in Hpost. exact Hpost.
  - destruct (receipt_request_corp_name
                (Sample.deployment (Sample.filing "changeOfAddress" VNone)
                   (Sample.business [("legalName", VStr "Acme Ltd")]) 200 201)
                "tok" [("identifier", VStr "BC1234567");
                       ("legalName", VStr "Acme Ltd")]
                [] [] [] [] (Sample.filing "changeOfAddress" VNone)
                "2020-05-05 1:41 PM" [] Sample.url "Change Of Address"
                (mkResponse 200 Sample.pdf)
                (fun H => ltac:(discriminate H))
                eq_refl eq_refl eq_refl)
      as (evs & Hevs & Hpost).
    cbn [app] in Hevs. rewrite <- Hevs in Hpost. exact Hpost.
Defined.

(* ===================================================================== *)
(** ** The subject *)
(* ===================================================================== *)

Lemma rule_table_assign status ft base :
  In (status, ft, base) rule_table ->
  assign_subject status ft = Ok (Some base)
  /\ fallback_subject (Some base) = Ok base
  /\ PyStr.contains "Numbered Company" base = false.
Proof.
  unfold rule_table. intros H.
  repeat (destruct H as [H|H]; [inversion H; subst; repeat split; reflexivity|]).
  destruct H.
Qed.

Lemma legal_name_lookup filing business src :
  legal_name_source filing business src ->
  legal_name filing business
  = Ok (match Py.assoc "legalName" src with Some v => v | None => VNone end).
Proof.
  unfold legal_name_source, legal_name.
  destruct (String.eqb (Filing.filing_type filing) "incorporationApplication").
  - intros ->. simpl. destruct (Py.assoc "legalName" src); reflexivity.
  - intros ->. simpl. destruct (Py.assoc "legalName" src); reflexivity.
Qed.

Lemma subject_line_table status ft base filing business v :
  In (status, ft, base) rule_table ->
  legal_name filing business = Ok v ->
  subject_line status ft filing business
  = Ok (if Py.truthy v then Py.str v ++ " - " ++ base else base).
Proof.
  intros Hin Hv. destruct (rule_table_assign _ _ _ Hin) as (Ha & Hf & _).
  unfold subject_line. rewrite Ha. cbn [rbind Ok].
  rewrite Hf. cbn [rbind Ok]. rewrite Hv. reflexivity.
Qed.

(** C2: for every pair of the rule table the subject is the base subject of
    the table, prefixed with the legal name and " - " when the dictionary
    the name is taken from (the name request of an incorporation
    application, the business otherwise) holds a non-empty legal name, and
    the base subject alone when it holds none. *)
Theorem subject_follows_rule_table status ft base filing business src :
  In (status, ft, base) rule_table ->
  legal_name_source filing business src ->
  (forall L, Py.assoc "legalName" src = Some (VStr L) -> L <> "" ->
     subject_line status ft filing business = Ok (L ++ " - " ++ base))
  /\ (Py.assoc "legalName" src = None ->
      subject_line status ft filing business = Ok base).
Proof.
  intros Hin Hsrc. apply legal_name_lookup in Hsrc.
  split.
  - intros L HL Hne. rewrite HL in Hsrc.
    rewrite (subject_line_table _ _ _ _ _ _ Hin Hsrc). simpl.
    destruct L; [congruence|reflexivity].
  - intros HN. rewrite HN in Hsrc.
    rewrite (subject_line_table _ _ _ _ _ _ Hin Hsrc). reflexivity.
Qed.

Lemma subject_follows_rule_table_witness :
  subject_line "paid" "incorporationApplication" Sample.acme (Sample.business [])
  = Ok "Acme Co - Confirmation of Filing from the Business Registry"
  /\ subject_line "completed" "changeOfAddress"
       (Sample.filing "changeOfAddress" VNone) (Sample.business [])
     = Ok "Notice of Articles".
Proof.
  split.
  - apply (proj1 (subject_follows_rule_table
                    "paid" "incorporationApplication"
                    "Confirmation of Filing from the Business Registry"
                    Sample.acme (Sample.business [])
                    [("legalName", VStr "Acme Co")]
                    (or_introl eq_refl) eq_refl) "Acme Co" eq_refl).
    discriminate.
  - apply (proj2 (subject_follows_rule_table
                    "completed" "changeOfAddress" "Notice of Articles"
                    (Sample.filing "changeOfAddress" VNone) (Sample.business [])
                    [("identifier", VStr "BC1234567")]
                    ltac:(simpl; auto 10) eq_refl)).
    reflexivity.
Defined.

(** Outside the table nothing is assigned to [subject]. *)
Lemma assign_subject_unmapped status ft :
  (forall base, ~ In (status, ft, base) rule_table) ->
  assign_subject status ft = Ok None.
Proof.
  intros H. unfold assign_subject, in_list, Filing.Status.PAID,
    Filing.Status.COMPLETED. cbn [existsb].
  repeat match goal with
         | |- context [String.eqb ?a ?b] =>
             let E := fresh "E" in
             destruct (String.eqb a b) eqn:E;
             [apply String.eqb_eq in E; subst|]
         end; cbn [orb]; try reflexivity;
    exfalso; eapply H; unfold rule_table; simpl; eauto 10.
Qed.

Lemma subject_line_unmapped status ft filing business :
  (forall base, ~ In (status, ft, base) rule_table) ->
  subject_line status ft filing business = Raise (UnboundLocalError "subject").
Proof.
  intros H. unfold subject_line. rewrite (assign_subject_unmapped _ _ H).
  reflexivity.
Qed.

(** C1: the pair ("completed", "annualReport") is not in the rule table;
    the build reaches the subject with every collaborator answering, no
    branch has assigned [subject], and the test [if not subject] raises
    [UnboundLocalError] where the fallback subject was to be emitted. *)
Theorem unmapped_pair_raises :
  (forall base, ~ In ("completed", "annualReport", base) rule_table)
  /\ fst (process
            (Sample.deployment (Sample.filing "annualReport" VNone)
               (Sample.business [("legalName", VStr "Acme Co")]) 200 201)
            (Sample.request "annualReport" "completed") "tok" [])
     = Raise (UnboundLocalError "subject").
Proof.
  split.
  - intros base H. unfold rule_table in H.
    repeat (destruct H as [H|H]; [discriminate H|]). destruct H.
  - vm_compute. reflexivity.
Qed.

(* ===================================================================== *)
(** ** Unknown filing types *)
(* ===================================================================== *)

(** C5: for a filing type that is not a key of [FILING_TYPE_CONVERTER] the
    build raises (Python's [KeyError], carrying the filing type) right after
    its debug log line: no collaborator is consulted and no message is
    returned. *)
Theorem unknown_filing_type_aborts e email_info token w :
  Py.assoc (EmailInfo.type email_info) FILING_TYPE_CONVERTER = None ->
  process e email_info token w
  = (Raise (KeyError (EmailInfo.type email_info)),
     (w ++ [ Log "debug" "filing_notification: %s" (ArgEmailInfo email_info) ])%list).
Proof.
  intros H. unfold process, converter_code. rewrite H. reflexivity.
Qed.

Lemma unknown_filing_type_aborts_witness :
  process (Sample.deployment Sample.acme (Sample.business []) 200 201)
    (Sample.request "specialResolution" "paid") "tok" []
  = (Raise (KeyError "specialResolution"),
     [ Log "debug" "filing_notification: %s"
         (ArgEmailInfo (Sample.request "specialResolution" "paid")) ]).
Proof.
  exact (unknown_filing_type_aborts
           (Sample.deployment Sample.acme (Sample.business []) 200 201)
           (Sample.request "specialResolution" "paid") "tok" [] eq_refl).
Defined.

(* ===================================================================== *)
(** ** The Address/Director scan *)
(* ===================================================================== *)

Lemma contains_eqb_false x s t :
  PyStr.contains x s = true -> PyStr.contains x t = false -> String.eqb s t = false.
Proof.
  intros Hs Ht. destruct (String.eqb s t) eqn:E; [|reflexivity].
  apply String.eqb_eq in E. congruence.
Qed.

(** C8, as stated, fails: a tag that contains both "Address" and
    "Director" is neither "changeOfAddress" nor "changeOfDirectors", so the
    scan is not reached and the template is not filled; the build stops at
    the filing-type mapping. *)
Lemma both_tokens_tag_is_not_composed :
  PyStr.contains "Address" "changeOfAddressAndDirectors" = true
  /\ PyStr.contains "Director" "changeOfAddressAndDirectors" = true
  /\ assign_subject "paid" "changeOfAddressAndDirectors" = Ok None
  /\ (forall s,
        subject_line "paid" "changeOfAddressAndDirectors"
          (Sample.filing "changeOfAddressAndDirectors" VNone)
          (Sample.business [])
        <> Ok s)
  /\ fst (process
            (Sample.deployment
               (Sample.filing "changeOfAddressAndDirectors" VNone)
               (Sample.business []) 200 201)
            (Sample.request "changeOfAddressAndDirectors" "paid") "tok" [])
     = Raise (KeyError "changeOfAddressAndDirectors").
Proof.
  repeat split; try (vm_compute; reflexivity).
  intros s. vm_compute. discriminate.
Qed.

(** C8 (amended): on a tag that contains both "Address" and "Director" the
    scan of the ordered list ["Address", "Director"] returns "Address"
    without raising; such a tag is outside the guard of the scan
    (["changeOfAddress", "changeOfDirectors"]) and outside the filing-type
    mapping, so the build fails on it with [KeyError] and composes no
    subject. *)
Theorem address_scan_prefers_address tag :
  PyStr.contains "Address" tag = true ->
  PyStr.contains "Director" tag = true ->
  address_director tag = Ok "Address"
  /\ in_list tag ["changeOfAddress"; "changeOfDirectors"] = false
  /\ converter_code tag = Raise (KeyError tag).
Proof.
  intros HA HD.
  assert (E1 := contains_eqb_false "Address" tag "incorporationApplication" HA eq_refl).
  assert (E2 := contains_eqb_false "Address" tag "annualReport" HA eq_refl).
  assert (E3 := contains_eqb_false "Address" tag "changeOfDirectors" HA eq_refl).
  assert (E4 := contains_eqb_false "Director" tag "changeOfAddress" HD eq_refl).
  repeat split.
  - unfold address_director. cbn [filter]. rewrite HA. reflexivity.
  - unfold in_list. cbn [existsb]. rewrite E3, E4. reflexivity.
  - unfold converter_code, FILING_TYPE_CONVERTER. cbn [Py.assoc].
    rewrite E1, E2, E3, E4. reflexivity.
Qed.

Lemma address_scan_prefers_address_witness :
  address_director "changeOfAddressAndDirectors" = Ok "Address"
  /\ in_list "changeOfAddressAndDirectors"
       ["changeOfAddress"; "changeOfDirectors"] = false
  /\ converter_code "changeOfAddressAndDirectors"
     = Raise (KeyError "changeOfAddressAndDirectors").
Proof.
  exact (address_scan_prefers_address "changeOfAddressAndDirectors"
           eq_refl eq_refl).
Defined.

(* ===================================================================== *)
(** ** The two legal-name lookups *)
(* ===================================================================== *)

(** C10: for an incorporation application whose name request has no legal
    name, the one receipt request of the paid state carries the [corpName]
    "Numbered Company", while the subject, for every pair of the rule
    table, is the base subject without a prefix and does not contain
    "Numbered Company"; an empty legal name leaves the subject without a
    prefix as well. *)
Theorem numbered_company_only_on_receipt
    e token business filing fdt w url r1 nr status ft base :
  Filing.filing_type filing = "incorporationApplication" ->
  name_request filing = Ok (VDict nr) ->
  filing_url e business filing = Ok url ->
  requests_get e url (request_headers token) = Ok r1 ->
  In (status, ft, base) rule_table ->
  (Py.assoc "legalName" nr = None ->
     (exists evs,
        snd (_get_pdfs e Filing.Status.PAID token business filing fdt w)
        = (w ++ evs)%list
        /\ List.filter is_post evs
           = [ Post (receipt_url e filing)
                 (VDict [ ("corpName", VStr "Numbered Company");
                          ("filingDateTime", VStr fdt) ])
                 (request_headers token) ])
     /\ subject_line status ft filing business = Ok base
     /\ PyStr.contains "Numbered Company" base = false)
  /\ (Py.assoc "legalName" nr = Some (VStr "") ->
      subject_line status ft filing business = Ok base).
Proof.
  intros Hia Hnr Hurl H1 Hin.
  assert (Hsrc : legal_name_source filing business nr).
  { unfold legal_name_source. rewrite Hia. exact Hnr. }
  apply legal_name_lookup in Hsrc.
  split.
  - intros HN. rewrite HN in Hsrc. split; [|split].
    + apply (paid_receipt_request e token business filing fdt w url _
               "Incorporation Application" r1 Hurl); try assumption.
      * unfold corp_name. rewrite Hia, Hnr. simpl. rewrite HN. reflexivity.
      * rewrite Hia. reflexivity.
    + rewrite (subject_line_table _ _ _ _ _ _ Hin Hsrc). reflexivity.
    + apply (rule_table_assign _ _ _ Hin).
  - intros HE. rewrite HE in Hsrc.
    rewrite (subject_line_table _ _ _ _ _ _ Hin Hsrc). reflexivity.
Qed.

Lemma numbered_company_only_on_receipt_witness :
  List.filter is_post
    (snd (_get_pdfs (Sample.deployment Sample.numbered (Sample.business []) 200 201)
            "paid" "tok" (Sample.business []) Sample.numbered
            "2020-05-05 1:41 PM" []))
  = [ Post "https://pay-api/api/v1/payment-requests/7001/receipts"
        (VDict [ ("corpName", VStr "Numbered Company");
                 ("filingDateTime", VStr "2020-05-05 1:41 PM") ])
        (request_headers "tok") ]
  /\ subject_line "paid" "incorporationApplication" Sample.numbered
       (Sample.business [])
     = Ok "Confirmation of Filing from the Business Registry"
  /\ subject_line "paid" "incorporationApplication"
       (Sample.filing "incorporationApplication" (VDict [("legalName", VStr "")]))
       (Sample.business [])
     = Ok "Confirmation of Filing from the Business Registry".
Proof.
  destruct (proj1 (numbered_company_only_on_receipt
                     (Sample.deployment Sample.numbered (Sample.business []) 200 201)
                     "tok" (Sample.business []) Sample.numbered
                     "2020-05-05 1:41 PM" [] Sample.url
                     (mkResponse 200 Sample.pdf) []
                     "paid" "incorporationApplication"
                     "Confirmation of Filing from the Business Registry"
                     eq_refl eq_refl eq_refl eq_refl (or_introl eq_refl))
                  eq_refl)
    as ((evs & Hevs & Hpost) & Hsubj & _).
  split; [|split].
  - cbn [app] in Hevs. rewrite <- Hevs in Hpost. exact Hpost.
  - exact Hsubj.
  - exact (proj2 (numbered_company_only_on_receipt
                    (Sample.deployment Sample.numbered (Sample.business []) 200 201)
                    "tok" (Sample.business [])
                    (Sample.filing "incorporationApplication"
                       (VDict [("legalName", VStr "")]))
                    "2020-05-05 1:41 PM" [] Sample.url
                    (mkResponse 200 Sample.pdf) [("legalName", VStr "")]
                    "paid" "incorporationApplication"
                    "Confirmation of Filing from the Business Registry"
                    eq_refl eq_refl eq_refl eq_refl (or_introl eq_refl))
                 eq_refl).
Defined.

(* ===================================================================== *)
(** ** The assembler, state by state *)
(* ===================================================================== *)

Ltac split_run :=
  repeat match goal with
         | |- context [match ?x with inl _ => _ | inr _ => _ end] =>
             destruct x eqn:?; cbn beta iota
         | |- context [if ?c then _ else _] => destruct c eqn:?; cbn beta iota
         end.

(** X1: whatever the services answer, and also when it raises,
    [_get_pdfs] only appends to the trace; what it appends are requests
    carrying the headers [Accept: application/pdf] and
    [Authorization: Bearer token], error logs about this filing and alerts of
    level "error"; there are as many alerts as error logs, at most as many
    as requests, and at most two requests. *)
Theorem get_pdfs_trace_discipline e status token business filing fdt w :
  exists evs,
    snd (_get_pdfs e status token business filing fdt w) = (w ++ evs)%list
    /\ Forall (assembler_event token filing) evs
    /\ List.length (List.filter is_alert evs)
       = List.length (List.filter is_log evs)
    /\ (List.length (List.filter is_alert evs)
        <= List.length (List.filter is_request evs) <= 2)%nat.
Proof.
  unfold _get_pdfs.
  destruct (String.eqb status Filing.Status.PAID) eqn:Hp;
    [apply String.eqb_eq in Hp; subst status;
     change (String.eqb Filing.Status.PAID Filing.Status.COMPLETED) with false|];
    run_monad; split_run;
    cbn [snd]; rewrite <- ?app_assoc; cbn [app];
    (eexists; split; [first [reflexivity | symmetry; apply app_nil_r]|]);
    (split; [repeat first [apply Forall_nil
                          | apply Forall_cons; [cbn; auto|]]|]);
    cbn; lia.
Qed.

(** X2: in the state "completed" with the notice of articles fetched (200):
    a filing that is not an incorporation application gets the single
    attachment "Notice of Articles.pdf" (order 1) from a single request, the
    certificate never being asked for; an incorporation application gets
    the notice followed by "Incorporation Certificate.pdf" (order 2) when
    the certificate is fetched, and the notice alone when it is not. *)
Theorem completed_attachment_order e token business filing fdt w url r1 :
  filing_url e business filing = Ok url ->
  requests_get e (url ++ "?type=noa") (request_headers token) = Ok r1 ->
  status_code r1 = HTTPStatus.OK ->
  let noa := {| fileName := "Notice of Articles.pdf";
                fileBytes := base64.b64encode (content r1);
                fileUrl := "";
                attachOrder := "1" |} in
  (Filing.filing_type filing <> "incorporationApplication" ->
   _get_pdfs e Filing.Status.COMPLETED token business filing fdt w
   = (Ok [noa], (w ++ [ Get (url ++ "?type=noa") (request_headers token) ])%list))
  /\ (Filing.filing_type filing = "incorporationApplication" ->
      forall r2,
        requests_get e (url ++ "?type=certificate") (request_headers token)
        = Ok r2 ->
        let certificate := {| fileName := "Incorporation Certificate.pdf";
                              fileBytes := base64.b64encode (content r2);
                              fileUrl := "";
                              attachOrder := "2" |} in
        (status_code r2 = HTTPStatus.OK ->
         fst (_get_pdfs e Filing.Status.COMPLETED token business filing fdt w)
         = Ok [noa; certificate])
        /\ (status_code r2 <> HTTPStatus.OK ->
            fst (_get_pdfs e Filing.Status.COMPLETED token business filing fdt w)
            = Ok [noa])).
Proof.
  intros Hurl H1 Hok noa. unfold _get_pdfs.
  change (String.eqb Filing.Status.COMPLETED Filing.Status.PAID) with false.
  change (String.eqb Filing.Status.COMPLETED Filing.Status.COMPLETED) with true.
  run_monad. rewrite Hurl. cbn beta iota. rewrite H1. cbn beta iota.
  rewrite Hok. cbn beta iota.
  change (negb (HTTPStatus.OK =? HTTPStatus.OK)%Z) with false. cbn beta iota.
  split.
  - intros Hne. apply String.eqb_neq in Hne. rewrite Hne. reflexivity.
  - intros Hia r2 H2. cbv zeta. rewrite Hia.
    change (String.eqb "incorporationApplication" "incorporationApplication")
      with true. cbn beta iota. rewrite H2. cbn beta iota.
    split; intros Hc.
    + rewrite Hc. reflexivity.
    + apply Z.eqb_neq in Hc. rewrite Hc. reflexivity.
Qed.

Lemma completed_attachment_order_witness :
  _get_pdfs
    (Sample.deployment (Sample.filing "changeOfAddress" VNone)
       (Sample.business []) 200 201)
    "completed" "tok" (Sample.business [])
    (Sample.filing "changeOfAddress" VNone) "2020-05-05 1:41 PM" []
  = (Ok [ {| fileName := "Notice of Articles.pdf";
             fileBytes := "JVBERg==";
             fileUrl := "";
             attachOrder := "1" |} ],
     [ Get (Sample.url ++ "?type=noa") (request_headers "tok") ])
  /\ fst (_get_pdfs (Sample.deployment Sample.acme (Sample.business []) 200 201)
            "completed" "tok" (Sample.business []) Sample.acme
            "2020-05-05 1:41 PM" [])
     = Ok [ {| fileName := "Notice of Articles.pdf";
               fileBytes := "JVBERg==";
               fileUrl := "";
               attachOrder := "1" |};
            {| fileName := "Incorporation Certificate.pdf";
               fileBytes := "JVBERg==";
               fileUrl := "";
               attachOrder := "2" |} ].
Proof.
  split.
  - apply (proj1 (completed_attachment_order
                    (Sample.deployment (Sample.filing "changeOfAddress" VNone)
                       (Sample.business []) 200 201)
                    "tok" (Sample.business [])
                    (Sample.filing "changeOfAddress" VNone)
                    "2020-05-05 1:41 PM" [] Sample.url
                    (mkResponse 200 Sample.pdf) eq_refl eq_refl eq_refl)).
    discriminate.
  - apply (proj1 (proj2 (completed_attachment_order
                           (Sample.deployment Sample.acme (Sample.business [])
                              200 201)
                           "tok" (Sample.business []) Sample.acme
                           "2020-05-05 1:41 PM" [] Sample.url
                           (mkResponse 200 Sample.pdf) eq_refl eq_refl eq_refl)
                    eq_refl (mkResponse 200 Sample.pdf) eq_refl)).
    reflexivity.
Defined.

Lemma fetch_names_differ status filing name f g :
  In f (fetches status filing) -> In g (fetches status filing) ->
  slot_file_name g name = slot_file_name f name -> g = f.
Proof.
  intros Hf Hg E.
  destruct (fetches_cases status filing) as [[H _]|[H|[H|H]]];
    rewrite H in Hf, Hg; simpl in Hf, Hg;
    repeat match goal with
           | H : _ \/ _ |- _ => destruct H
           | H : False |- _ => destruct H
           end; subst; try reflexivity; simpl in E; discriminate.
Qed.

(** X3: when every fetch of the state is answered, the attachment of a
    fetch is in the result exactly when its answer carries the one expected
    status: 200 for the documents, 201 for the receipt.  Any other status,
    a 2xx one included, leaves the attachment out. *)
Theorem attachment_iff_expected_status
    e status token business filing fdt w url cn name (R : fetch -> response) f :
  filing_url e business filing = Ok url ->
  (status = Filing.Status.PAID -> corp_name filing business = Ok cn) ->
  (status = Filing.Status.PAID ->
   filing_name (Filing.filing_type filing) = Ok name) ->
  (forall g, In g (fetches status filing) ->
             answer e token filing fdt url cn g = Ok (R g)) ->
  In f (fetches status filing) ->
  exists pdfs,
    fst (_get_pdfs e status token business filing fdt w) = Ok pdfs
    /\ (In (slot_file_name f name) (List.map fileName pdfs)
        <-> status_code (R f) = success_code f).
Proof.
  intros Hurl Hcn Hname Hans Hf.
  rewrite (get_pdfs_run e status token business filing fdt w url cn name R
             (fun _ => Hurl) Hcn Hname Hans).
  eexists. split; [reflexivity|]. split.
  - intros Hin. apply in_map_iff in Hin. destruct Hin as (a & Ha & Hin).
    apply in_flat_map in Hin. destruct Hin as (g & Hg & Hin).
    unfold slot in Hin.
    destruct (status_code (R g) =? success_code g)%Z eqn:Hc; [|destruct Hin].
    destruct Hin as [<-|[]]. simpl in Ha.
    rewrite <- (fetch_names_differ status filing name f g Hf Hg Ha).
    now apply Z.eqb_eq.
  - intros Hc. apply in_map_iff.
    exists {| fileName := slot_file_name f name;
              fileBytes := base64.b64encode (content (R f));
              fileUrl := "";
              attachOrder := slot_order f |}.
    split; [reflexivity|]. apply in_flat_map. exists f. split; [assumption|].
    unfold slot. rewrite Hc, Z.eqb_refl. left. reflexivity.
Qed.

Lemma attachment_iff_expected_status_witness :
  In "Receipt.pdf"
    (List.map fileName
       (returned
          (fst (_get_pdfs (Sample.deployment Sample.acme (Sample.business []) 200 201)
            "paid" "tok" (Sample.business []) Sample.acme
            "2020-05-05 1:41 PM" []))))
  /\ status_code (sample_answers 200 201 ReceiptPdf) = success_code ReceiptPdf.
Proof.
  destruct (attachment_iff_expected_status
              (Sample.deployment Sample.acme (Sample.business []) 200 201)
              "paid" "tok" (Sample.business []) Sample.acme
              "2020-05-05 1:41 PM" [] Sample.url (VStr "Acme Co")
              "Incorporation Application" (sample_answers 200 201) ReceiptPdf
              eq_refl (fun _ => eq_refl) (fun _ => eq_refl)
              ltac:(intros g [<-|[<-|[]]]; reflexivity)
              (or_intror (or_introl eq_refl)))
    as (pdfs & Hpdfs & Hiff).
  split; [|reflexivity].
  rewrite Hpdfs. apply Hiff. reflexivity.
Defined.

(** X4: when every fetch of the state is answered, each fetch ends either
    in an attachment or in an alert, never in both and never in neither:
    attachments and alerts together are as many as the fetches of the
    state, and every fetch of the state is requested. *)
Theorem every_fetch_attaches_or_alerts
    e status token business filing fdt w url cn name (R : fetch -> response) :
  filing_url e business filing = Ok url ->
  (status = Filing.Status.PAID -> corp_name filing business = Ok cn) ->
  (status = Filing.Status.PAID ->
   filing_name (Filing.filing_type filing) = Ok name) ->
  (forall g, In g (fetches status filing) ->
             answer e token filing fdt url cn g = Ok (R g)) ->
  exists pdfs evs,
    _get_pdfs e status token business filing fdt w = (Ok pdfs, (w ++ evs)%list)
    /\ (List.length pdfs + List.length (List.filter is_alert evs)
        = List.length (fetches status filing))%nat
    /\ List.length (List.filter is_request evs)
       = List.length (fetches status filing).
Proof.
  intros Hurl Hcn Hname Hans.
  rewrite (get_pdfs_run e status token business filing fdt w url cn name R
             (fun _ => Hurl) Hcn Hname Hans).
  eexists. eexists. split; [reflexivity|]. clear Hurl Hcn Hname Hans.
  induction (fetches status filing) as [|g gs IH]; [split; reflexivity|].
  destruct IH as [IH1 IH2].
  cbn [flat_map]. rewrite !length_app, !filter_app, !length_app.
  unfold fetch_events at 1 3. unfold slot at 1. unfold failure_events.
  destruct g; cbn [request_event filter is_alert is_request];
    match goal with
    | |- context [(?a =? ?b)%Z] => destruct (a =? b)%Z
    end; cbn [length filter is_alert is_request app]; lia.
Qed.

Lemma every_fetch_attaches_or_alerts_witness :
  (List.length
     (returned
        (fst (_get_pdfs (Sample.deployment Sample.acme (Sample.business []) 503 201)
            "paid" "tok" (Sample.business []) Sample.acme
            "2020-05-05 1:41 PM" [])))
   + List.length
       (List.filter is_alert
          (snd (_get_pdfs (Sample.deployment Sample.acme (Sample.business []) 503 201)
            "paid" "tok" (Sample.business []) Sample.acme
            "2020-05-05 1:41 PM" [])))
   = 2)%nat.
Proof.
  destruct (every_fetch_attaches_or_alerts
              (Sample.deployment Sample.acme (Sample.business []) 503 201)
              "paid" "tok" (Sample.business []) Sample.acme
              "2020-05-05 1:41 PM" [] Sample.url (VStr "Acme Co")
              "Incorporation Application" (sample_answers 503 201)
              eq_refl (fun _ => eq_refl) (fun _ => eq_refl)
              ltac:(intros g [<-|[<-|[]]]; reflexivity))
    as (pdfs & evs & Hrun & Hsum & _).
  rewrite Hrun. exact Hsum.
Defined.

(** X5: in the states "paid" and "completed" a business without a usable
    ["identifier"] (the key is missing, or the business is no dictionary)
    makes [_get_pdfs] raise before anything is requested, logged or
    reported. *)
Theorem missing_identifier_aborts_before_any_request
    e status token business filing fdt w x :
  status = Filing.Status.PAID \/ status = Filing.Status.COMPLETED ->
  Py.subscript business "identifier" = Raise x ->
  _get_pdfs e status token business filing fdt w = (Raise x, w).
Proof.
  intros Hs Hb. unfold _get_pdfs, filing_url. rewrite Hb.
  destruct Hs; subst status; reflexivity.
Qed.

Lemma missing_identifier_aborts_before_any_request_witness :
  _get_pdfs (Sample.deployment Sample.acme (VDict []) 200 201)
    "completed" "tok" (VDict []) Sample.acme "2020-05-05 1:41 PM" []
  = (Raise (KeyError "identifier"), []).
Proof.
  exact (missing_identifier_aborts_before_any_request
           (Sample.deployment Sample.acme (VDict []) 200 201)
           "completed" "tok" (VDict []) Sample.acme "2020-05-05 1:41 PM" []
           (KeyError "identifier") (or_intror eq_refl) eq_refl).
Defined.

(** X6: in the state "paid", when the company name cannot be looked up
    (for an incorporation application: the submission has no name request),
    [_get_pdfs] raises after the filing document has been requested, and
    its failure reported if it failed, but before any receipt request. *)
Theorem unresolved_corp_name_aborts_between_requests
    e token business filing fdt w url name r1 x :
  filing_url e business filing = Ok url ->
  requests_get e url (request_headers token) = Ok r1 ->
  filing_name (Filing.filing_type filing) = Ok name ->
  corp_name filing business = Raise x ->
  _get_pdfs e Filing.Status.PAID token business filing fdt w
  = (Raise x,
     (w ++ Get url (request_headers token)
        :: failure_events filing FilingPdf r1)%list).
Proof.
  intros Hurl H1 Hname Hcn. unfold _get_pdfs.
  change (String.eqb Filing.Status.PAID Filing.Status.PAID) with true.
  run_monad. rewrite Hurl. cbn beta iota. rewrite H1. cbn beta iota.
  rewrite Hname, Hcn. unfold failure_events, success_code.
  destruct (status_code r1 =? HTTPStatus.OK)%Z; simpl;
    rewrite <- ?app_assoc; reflexivity.
Qed.

Lemma unresolved_corp_name_aborts_between_requests_witness :
  _get_pdfs (Sample.deployment Sample.bare (Sample.business []) 200 201)
    "paid" "tok" (Sample.business []) Sample.bare "2020-05-05 1:41 PM" []
  = (Raise (KeyError "incorporationApplication"),
     [ Get Sample.url (request_headers "tok") ]).
Proof.
  exact (unresolved_corp_name_aborts_between_requests
           (Sample.deployment Sample.bare (Sample.business []) 200 201)
           "tok" (Sample.business []) Sample.bare "2020-05-05 1:41 PM" []
           Sample.url "Incorporation Application" (mkResponse 200 Sample.pdf)
           (KeyError "incorporationApplication")
           eq_refl eq_refl eq_refl eq_refl).
Defined.

(** X7: [_get_pdfs] returns no attachment and leaves the trace untouched
    for every deployment, business and filing exactly when the status is
    neither "paid" nor "completed". *)
Theorem assembler_idle_iff_other_status status :
  (forall e token business filing fdt w,
     _get_pdfs e status token business filing fdt w = (Ok [], w))
  <-> status <> Filing.Status.PAID /\ status <> Filing.Status.COMPLETED.
Proof.
  split.
  - intros H. split; intros ->.
    + specialize (H (Sample.deployment Sample.acme VNone 200 201) "" VNone
                    Sample.acme "" []). discriminate H.
    + specialize (H (Sample.deployment Sample.acme VNone 200 201) "" VNone
                    Sample.acme "" []). discriminate H.
  - intros [Hp Hc] e token business filing fdt w. unfold _get_pdfs.
    apply String.eqb_neq in Hp, Hc. rewrite Hp, Hc. reflexivity.
Qed.

(** X8: a list returned by [_get_pdfs] is at most one attachment of order
    "1" named "Notice of ... .pdf" followed by at most one attachment of
    order "2" named "Receipt.pdf" or "Incorporation Certificate.pdf"; no
    attachment has a URL. *)
Theorem get_pdfs_result_shape e status token business filing fdt w pdfs w' :
  _get_pdfs e status token business filing fdt w = (Ok pdfs, w') ->
  exists first second,
    pdfs = (first ++ second)%list
    /\ (List.length first <= 1)%nat /\ (List.length second <= 1)%nat
    /\ Forall (fun a => attachOrder a = "1" /\ fileUrl a = ""
                        /\ exists n, fileName a = "Notice of " ++ n ++ ".pdf")
         first
    /\ Forall (fun a => attachOrder a = "2" /\ fileUrl a = ""
                        /\ (fileName a = "Receipt.pdf"
                            \/ fileName a = "Incorporation Certificate.pdf"))
         second.
Proof.
  intros H. unfold _get_pdfs in H.
  destruct (String.eqb status Filing.Status.PAID) eqn:Hp;
    [apply String.eqb_eq in Hp; subst status;
     change (String.eqb Filing.Status.PAID Filing.Status.COMPLETED)
       with false in H|];
    unfold http_get, http_post, logger_error, capture_message in H;
    unfold bind, lift, ret, emit, Ok in H; cbn beta iota in H;
    repeat match type of H with
           | context [match ?x with inl _ => _ | inr _ => _ end] =>
               destruct x eqn:?; cbn beta iota in H; try discriminate H
           | context [if ?c then _ else _] =>
               destruct c eqn:?; cbn beta iota in H; try discriminate H
           end;
    inversion H; subst; cbn [app];
    match goal with
    | |- exists first second, [] = _ /\ _ => exists [], []
    | |- exists first second, [?a; ?b] = _ /\ _ => exists [a], [b]
    | |- exists first second, [?a] = _ /\ _ =>
        match a with
        | {| attachOrder := "1" |} => exists [a], []
        | {| attachOrder := "2" |} => exists [], [a]
        end
    end;
    (split; [reflexivity|]); (split; [simpl; lia|]); (split; [simpl; lia|]);
    split;
    repeat first
      [ apply Forall_nil
      | apply Forall_cons;
        [ cbn; repeat split; auto;
          first [exists "Articles"; reflexivity | eexists; reflexivity]
        | ] ].
Qed.

Lemma get_pdfs_result_shape_witness :
  exists first second,
    returned
      (fst (_get_pdfs (Sample.deployment Sample.acme (Sample.business []) 200 201)
            "paid" "tok" (Sample.business []) Sample.acme
            "2020-05-05 1:41 PM" []))
    = (first ++ second)%list
    /\ (List.length first <= 1)%nat /\ (List.length second <= 1)%nat.
Proof.
  destruct (get_pdfs_result_shape
              (Sample.deployment Sample.acme (Sample.business []) 200 201)
              "paid" "tok" (Sample.business []) Sample.acme
              "2020-05-05 1:41 PM" [] _ _ eq_refl)
    as (first & second & E & L1 & L2 & _).
  exists first, second. repeat split; assumption.
Defined.

(* ===================================================================== *)
(** ** When the subject exists *)
(* ===================================================================== *)

(** The assignments never raise: the scan of ["Address"; "Director"] is
    only run on the two tags of its guard. *)
Lemma assign_subject_total status ft : exists o, assign_subject status ft = Ok o.
Proof.
  unfold assign_subject, in_list. cbn [existsb].
  repeat match goal with
         | |- context [String.eqb ?a ?b] =>
             let E := fresh "E" in
             destruct (String.eqb a b) eqn:E;
             [apply String.eqb_eq in E; subst|]
         end; cbn [orb rbind]; eexists; try reflexivity.
Qed.

Lemma assign_subject_some status ft base :
  assign_subject status ft = Ok (Some base) -> In (status, ft, base) rule_table.
Proof.
  unfold assign_subject, in_list, Filing.Status.PAID, Filing.Status.COMPLETED.
  cbn [existsb].
  repeat match goal with
         | |- context [String.eqb ?a ?b] =>
             let E := fresh "E" in
             destruct (String.eqb a b) eqn:E;
             [apply String.eqb_eq in E; subst|]
         end; cbn [orb]; intros H; try discriminate H;
    vm_compute in H; inversion H; subst; unfold rule_table; simpl; auto 10.
Qed.

Lemma subject_line_inv status ft filing business s :
  subject_line status ft filing business = Ok s ->
  exists base v,
    In (status, ft, base) rule_table
    /\ legal_name filing business = Ok v
    /\ s = if Py.truthy v then Py.str v ++ " - " ++ base else base.
Proof.
  intros H. unfold subject_line in H.
  destruct (assign_subject_total status ft) as [o Ho]. rewrite Ho in H.
  cbn [rbind Ok] in H. destruct o as [base|]; [|discriminate H].
  pose proof (assign_subject_some _ _ _ Ho) as Hin.
  destruct (rule_table_assign _ _ _ Hin) as (_ & Hf & _).
  rewrite Hf in H. cbn [rbind Ok] in H.
  destruct (legal_name filing business) as [x|v]; [discriminate H|].
  cbn [rbind Ok] in H. exists base, v. repeat split; auto.
  inversion H. reflexivity.
Qed.

(** X9: the subject is composed exactly when the pair (status, filing
    type) is in the rule table and the legal-name lookup returns; the
    assignments themselves never raise (the scan of ["Address",
    "Director"] always finds a token behind its guard). *)
Theorem subject_line_succeeds_iff status ft filing business :
  (exists s, subject_line status ft filing business = Ok s)
  <-> (exists base, In (status, ft, base) rule_table)
      /\ (exists v, legal_name filing business = Ok v).
Proof.
  split.
  - intros [s H]. destruct (subject_line_inv _ _ _ _ _ H) as (base & v & Hin & Hv & _).
    split; eauto.
  - intros [[base Hin] [v Hv]]. eexists.
    apply (subject_line_table _ _ _ _ _ _ Hin Hv).
Qed.

Lemma append_nonempty_r a b : b <> "" -> a ++ b <> "".
Proof. destruct a; simpl; [auto|discriminate]. Qed.

Lemma rule_table_base_nonempty status ft base :
  In (status, ft, base) rule_table -> base <> "".
Proof.
  unfold rule_table. intros H.
  repeat (destruct H as [H|H]; [inversion H; subst; discriminate|]).
  destruct H.
Qed.

(** X10: a composed subject is never empty: it is a base subject of the
    rule table for its pair, alone or after a prefix and " - ". *)
Theorem subject_is_never_empty status ft filing business s :
  subject_line status ft filing business = Ok s ->
  s <> ""
  /\ exists base,
       In (status, ft, base) rule_table
       /\ (s = base \/ exists prefix, s = prefix ++ " - " ++ base).
Proof.
  intros H. destruct (subject_line_inv _ _ _ _ _ H) as (base & v & Hin & _ & ->).
  pose proof (rule_table_base_nonempty _ _ _ Hin) as Hne.
  split.
  - destruct (Py.truthy v); [|assumption].
    apply append_nonempty_r. discriminate.
  - exists base. split; [assumption|].
    destruct (Py.truthy v); [right; eauto|left; reflexivity].
Qed.

Lemma subject_is_never_empty_witness :
  exists base,
    In ("paid", "incorporationApplication", base) rule_table
    /\ ("Acme Co - Confirmation of Filing from the Business Registry" = base
        \/ exists prefix,
             "Acme Co - Confirmation of Filing from the Business Registry"
             = prefix ++ " - " ++ base).
Proof.
  exact (proj2 (subject_is_never_empty "paid" "incorporationApplication"
                  Sample.acme (Sample.business []) _ eq_refl)).
Defined.

(** X11: the name sent with the receipt and the legal name used for the
    subject are the same lookup (same value, or same exception) except in
    one case: an incorporation application whose name request is a
    dictionary without "legalName", where the receipt gets "Numbered
    Company" and the subject gets [None]. *)
Theorem lookups_differ_only_without_legal_name filing business :
  corp_name filing business = legal_name filing business
  \/ (Filing.filing_type filing = "incorporationApplication"
      /\ exists nr,
           name_request filing = Ok (VDict nr)
           /\ Py.assoc "legalName" nr = None
           /\ corp_name filing business = Ok (VStr "Numbered Company")
           /\ legal_name filing business = Ok VNone).
Proof.
  unfold corp_name, legal_name.
  destruct (String.eqb (Filing.filing_type filing) "incorporationApplication")
    eqn:Hia; [|left; reflexivity].
  apply String.eqb_eq in Hia.
  destruct (name_request filing) as [x|nr]; [left; reflexivity|].
  destruct nr as [| | | | |m]; try (left; reflexivity).
  cbn [rbind Py.get].
  destruct (Py.assoc "legalName" m) eqn:Hm; [left; reflexivity|].
  right. split; [assumption|]. exists m. repeat split; assumption.
Qed.

(* ===================================================================== *)
(** ** When a message is returned, and what happens before the fetches *)
(* ===================================================================== *)

Ltac stage H :=
  match type of H with
  | context [match ?x with inl _ => _ | inr _ => _ end] =>
      let E := fresh "Hstage" in
      destruct x eqn:E; cbn beta iota in H
  end.

(** A returned message comes from stages that all went through. *)
Lemma process_ok_inv e email_info token w m w' :
  process e email_info token w = (Ok m, w') ->
  exists code template filled filing business fd ed name jt args html pdfs,
    converter_code (EmailInfo.type email_info) = Ok code
    /\ read_text e (Py.str_opt (TEMPLATE_PATH (app_config e))
                    ++ "/BC-" ++ code ++ "-" ++ EmailInfo.option email_info
                    ++ ".html") = Ok template
    /\ substitute_template_parts e template = Ok filled
    /\ get_filing_info e (EmailInfo.filingId email_info)
       = Ok (filing, business, fd, ed)
    /\ filing_name (Filing.filing_type filing) = Ok name
    /\ jinja_Template e filled = Ok jt
    /\ render_arguments e (EmailInfo.type email_info) filing business fd ed name
       = Ok args
    /\ jt args = Ok html
    /\ _get_pdfs e (EmailInfo.option email_info) token business filing fd
         (w ++ [ Log "debug" "filing_notification: %s" (ArgEmailInfo email_info) ])%list
       = (Ok pdfs, w')
    /\ get_recipients e (EmailInfo.option email_info) (Filing.filing_json filing)
         token = Ok (recipients m)
    /\ subject_line (EmailInfo.option email_info) (EmailInfo.type email_info)
         filing business = Ok (subject (msg_content m))
    /\ m = {| recipients := recipients m;
              requestBy := "BCRegistries@gov.bc.ca";
              msg_content := {| subject := subject (msg_content m);
                                body := html;
                                attachments := pdfs |} |}.
Proof.
  intros H. unfold process, logger_debug in H.
  unfold bind at 1 in H. unfold emit at 1 in H. cbn beta iota in H.
  unfold bind, lift, ret, Ok in H. unfold Ok.
  stage H; [discriminate H|].
  stage H; [discriminate H|].
  stage H; [discriminate H|].
  stage H; [discriminate H|].
  repeat match goal with
         | p : (_ * _)%type |- _ => destruct p
         end.
  cbn beta iota in H.
  stage H; [discriminate H|].
  stage H; [discriminate H|].
  stage H; [discriminate H|].
  stage H; [discriminate H|].
  match type of H with
  | context [_get_pdfs ?a ?b ?c ?d ?f ?g ?h] =>
      destruct (_get_pdfs a b c d f g h) as [rp wp] eqn:Hpdfs
  end.
  destruct rp as [x|pdfs]; [discriminate H|].
  stage H; [discriminate H|].
  stage H; [discriminate H|].
  inversion H; subst. cbn.
  repeat eexists; eassumption.
Qed.

(** X12: [process] returns a message only for a filing type of
    [FILING_TYPE_CONVERTER] and a pair (status, filing type) of the rule
    table (so only for the statuses "paid" and "completed"); the sender is
    always "BCRegistries@gov.bc.ca". *)
Theorem message_only_for_table_pairs e email_info token w m w' :
  process e email_info token w = (Ok m, w') ->
  requestBy m = "BCRegistries@gov.bc.ca"
  /\ (exists code,
        Py.assoc (EmailInfo.type email_info) FILING_TYPE_CONVERTER = Some code)
  /\ exists base,
       In (EmailInfo.option email_info, EmailInfo.type email_info, base)
          rule_table.
Proof.
  intros H.
  destruct (process_ok_inv _ _ _ _ _ _ H)
    as (code & template & filled & filing & business & fd & ed & name & jt
        & args & html & pdfs & Hc & _ & _ & _ & _ & _ & _ & _ & _ & _ & Hs & Hm).
  split; [rewrite Hm; reflexivity|]. split.
  - unfold converter_code in Hc.
    destruct (Py.assoc (EmailInfo.type email_info) FILING_TYPE_CONVERTER);
      [eauto|discriminate Hc].
  - destruct (subject_line_inv _ _ _ _ _ Hs) as (base & _ & Hin & _). eauto.
Qed.

Lemma message_only_for_table_pairs_witness :
  exists base, In ("paid", "incorporationApplication", base) rule_table.
Proof.
  exact (proj2 (proj2 (message_only_for_table_pairs
                         (Sample.deployment Sample.acme (Sample.business [])
                            200 201)
                         (Sample.request "incorporationApplication" "paid")
                         "tok" [] _ _ eq_refl))).
Defined.

Ltac early_exit H Hreq :=
  let Hr := fresh "Hr" in
  let Hw := fresh "Hw" in
  injection H as Hr Hw; apply app_inv_head in Hw; subst;
  discriminate Hreq.

(** X13: [process] sends a request to the document or payment service only
    after the template was found and expanded, the filing was looked up and
    the body was rendered: a failure of any of these stages ends the build
    with no request made. *)
Theorem requests_only_after_rendering e email_info token w r evs :
  process e email_info token w = (r, (w ++ evs)%list) ->
  List.existsb is_request evs = true ->
  exists code template filled filing business fd ed name jt args html,
    converter_code (EmailInfo.type email_info) = Ok code
    /\ read_text e (Py.str_opt (TEMPLATE_PATH (app_config e))
                    ++ "/BC-" ++ code ++ "-" ++ EmailInfo.option email_info
                    ++ ".html") = Ok template
    /\ substitute_template_parts e template = Ok filled
    /\ get_filing_info e (EmailInfo.filingId email_info)
       = Ok (filing, business, fd, ed)
    /\ filing_name (Filing.filing_type filing) = Ok name
    /\ jinja_Template e filled = Ok jt
    /\ render_arguments e (EmailInfo.type email_info) filing business fd ed name
       = Ok args
    /\ jt args = Ok html.
Proof.
  intros H Hreq. unfold process, logger_debug in H.
  unfold bind at 1 in H. unfold emit at 1 in H. cbn beta iota in H.
  unfold bind, lift, ret, Ok in H. unfold Ok.
  stage H; [early_exit H Hreq|].
  stage H; [early_exit H Hreq|].
  stage H; [early_exit H Hreq|].
  stage H; [early_exit H Hreq|].
  repeat match goal with
         | p : (_ * _)%type |- _ => destruct p
         end.
  cbn beta iota in H.
  stage H; [early_exit H Hreq|].
  stage H; [early_exit H Hreq|].
  stage H; [early_exit H Hreq|].
  stage H; [early_exit H Hreq|].
  repeat eexists; eassumption.
Qed.

Lemma requests_only_after_rendering_witness :
  exists code, converter_code "incorporationApplication" = Ok code.
Proof.
  destruct (requests_only_after_rendering
              (Sample.deployment Sample.acme (Sample.business []) 200 201)
              (Sample.request "incorporationApplication" "paid") "tok" []
              _ _ eq_refl eq_refl)
    as (code & _ & _ & _ & _ & _ & _ & _ & _ & _ & _ & Hcode & _).
  exists code. exact Hcode.
Defined.

(* ===================================================================== *)
(** ** Names and payloads *)
(* ===================================================================== *)

Section Letters.
Import PyStr.

Lemma letter_not_space c : is_letter c = true -> Ascii.eqb c " " = false.
Proof.
  destruct c as [[] [] [] [] [] [] [] []]; intros H;
    first [reflexivity | discriminate H].
Qed.

Lemma upper_letter_not_space c :
  is_letter c = true -> Ascii.eqb (upper_char c) " " = false.
Proof.
  destruct c as [[] [] [] [] [] [] [] []]; intros H;
    first [reflexivity | discriminate H].
Qed.

Lemma remove_spaces_app a b :
  remove_spaces (a ++ b) = remove_spaces a ++ remove_spaces b.
Proof.
  induction a as [|c a IH]; simpl; [reflexivity|].
  destruct (Ascii.eqb c " "); simpl; congruence.
Qed.

Lemma remove_spaces_letters s : all_letters s = true -> remove_spaces s = s.
Proof.
  induction s as [|c s IH]; simpl; [reflexivity|].
  intros H. apply andb_true_iff in H. destruct H as [Hc Hs].
  rewrite (letter_not_space c Hc), (IH Hs). reflexivity.
Qed.

Lemma all_letters_app a b :
  all_letters (a ++ b) = all_letters a && all_letters b.
Proof.
  induction a as [|c a IH]; simpl; [reflexivity|].
  rewrite IH. apply andb_assoc.
Qed.

(** On letters the words lose nothing: without the joining spaces they are
    the string again. *)
Lemma words_keep_letters n : forall s,
  (String.length s <= n)%nat -> all_letters s = true ->
  remove_spaces (join " " (findall_words s)) = s.
Proof.
  induction n as [|n IH]; intros s Hn Hs.
  - destruct s; simpl in Hn; [reflexivity|lia].
  - destruct s as [|c s]; [reflexivity|].
    simpl in Hs, Hn. apply andb_true_iff in Hs. destruct Hs as [Hc Hs].
    rewrite findall_words_cons, Hc.
    destruct (span_non_upper s) as [w r] eqn:Hsp.
    apply span_non_upper_spec in Hsp. destruct Hsp as (E & _ & _ & L).
    subst s. rewrite all_letters_app in Hs. apply andb_true_iff in Hs.
    destruct Hs as [Hw Hr].
    rewrite join_cons, remove_spaces_app.
    assert (Hrest : remove_spaces
                      match findall_words r with
                      | [] => ""
                      | _ :: _ => " " ++ join " " (findall_words r)
                      end = r).
    { rewrite <- (IH r) at 2 by (auto; lia).
      destruct (findall_words r); reflexivity. }
    rewrite Hrest. simpl. rewrite (letter_not_space c Hc).
    now rewrite (remove_spaces_letters w Hw).
Qed.

End Letters.

(** X14: for a tag made of letters only the readable name is the tag with
    its first letter capitalized and nothing but spaces added: taking the
    spaces out gives the capitalized tag back. *)
Theorem filing_name_keeps_the_letters c rest :
  PyStr.is_letter c = true -> all_letters rest = true ->
  exists name,
    filing_name (String c rest) = Ok name
    /\ remove_spaces name = String (PyStr.upper_char c) rest.
Proof.
  intros Hc Hrest. eexists. split; [reflexivity|].
  simpl. rewrite (upper_letter_not_space c Hc).
  now rewrite (words_keep_letters (String.length rest) rest).
Qed.

Lemma filing_name_keeps_the_letters_witness :
  exists name,
    filing_name "eFiling" = Ok name /\ remove_spaces name = "EFiling".
Proof.
  exact (filing_name_keeps_the_letters "e" "Filing" eq_refl eq_refl).
Defined.

Lemma digit_in_alphabet n :
  (n < 64)%N -> Py.has_char (base64.digit n) base64.alphabet = true.
Proof.
  intros H. unfold base64.digit.
  assert (Hk : (N.to_nat n < 64)%nat) by lia.
  clear H. revert Hk. generalize (N.to_nat n). intros k Hk.
  do 64 (destruct k as [|k]; [reflexivity|]). lia.
Qed.

Lemma digit_is_b64_char n : (n < 64)%N -> is_b64_char (base64.digit n) = true.
Proof.
  intros H. unfold is_b64_char. now rewrite (digit_in_alphabet n H).
Qed.

Lemma b64_bounds (a b : byte) :
  let x := Byte.to_N a in
  let y := Byte.to_N b in
  (x / 4 < 64 /\ (x mod 4) * 16 + y / 16 < 64 /\ (x mod 4) * 16 < 64
   /\ (y mod 16) * 4 + x / 64 < 64 /\ (y mod 16) * 4 < 64 /\ x mod 64 < 64)%N.
Proof.
  intros x y.
  assert (Hx : (x < 256)%N) by (pose proof (Byte.to_N_bounded a); subst x; lia).
  assert (Hy : (y < 256)%N) by (pose proof (Byte.to_N_bounded b); subst y; lia).
  assert (H4 : (x mod 4 < 4)%N) by (apply N.mod_lt; discriminate).
  assert (H16 : (y mod 16 < 16)%N) by (apply N.mod_lt; discriminate).
  assert (H64 : (x mod 64 < 64)%N) by (apply N.mod_lt; discriminate).
  assert (Hd4 : (x / 4 < 64)%N) by (apply N.Div0.div_lt_upper_bound; lia).
  assert (Hd16 : (y / 16 < 16)%N) by (apply N.Div0.div_lt_upper_bound; lia).
  assert (Hd64 : (x / 64 < 4)%N) by (apply N.Div0.div_lt_upper_bound; lia).
  lia.
Qed.

(** X15: the payload of an attachment is base64 text: four characters for
    every three bytes of the document, rounded up, each of them a digit of
    the base64 alphabet or the padding "=". *)
Theorem b64encode_is_base64_text : forall content,
  String.length (base64.b64encode content)
  = (4 * ((List.length content + 2) / 3))%nat
  /\ all_chars is_b64_char (base64.b64encode content) = true.
Proof.
  assert (H : forall n content, (List.length content <= n)%nat ->
            String.length (base64.b64encode content)
            = (4 * ((List.length content + 2) / 3))%nat
            /\ all_chars is_b64_char (base64.b64encode content) = true).
  { induction n as [|n IH]; intros content Hn.
    - destruct content; simpl in Hn; [split; reflexivity|lia].
    - destruct content as [|a [|b [|c rest]]].
      + split; reflexivity.
      + destruct (b64_bounds a a) as (H1 & _ & H2 & _).
        split; [reflexivity|].
        cbn [base64.b64encode all_chars].
        rewrite !digit_is_b64_char by assumption. reflexivity.
      + destruct (b64_bounds a b) as (H1 & H2 & _ & _ & H3 & _).
        split; [reflexivity|].
        cbn [base64.b64encode all_chars].
        rewrite !digit_is_b64_char by assumption. reflexivity.
      + destruct (b64_bounds a b) as (H1 & H2 & _).
        destruct (b64_bounds c b) as (_ & _ & _ & H3 & _ & H4).
        destruct (IH rest) as [IHl IHc]; [simpl in Hn; lia|].
        split.
        * cbn [base64.b64encode String.length List.length]. rewrite IHl.
          replace (S (S (S (List.length rest))) + 2)%nat
            with (1 * 3 + (List.length rest + 2))%nat by lia.
          rewrite Nat.div_add_l by discriminate. lia.
        * cbn [base64.b64encode all_chars].
          rewrite !digit_is_b64_char by assumption. exact IHc. }
  intros content. apply (H (List.length content)). lia.
Qed.
